(** * pyserum: the [Market] class of [src/market/market.py]

    A shallow embedding of [Market] and of the part of its collaborators that
    the class touches, followed by the properties of fill parsing, order
    placement and transaction submission.

    Python integers are [Z].  The true division [/] of two Python integers is
    the exact quotient, kept as a reduced rational in [Q]; CPython returns the
    binary64 number nearest to that quotient.  Exceptions are values of
    [PyExn]; code that talks to the RPC node runs in the monad [M], whose
    state records every call made to the node. *)

From Stdlib Require Import ZArith QArith Qabs Qreduction List String Ascii Bool Lia.
From Stdlib Require Import Strings.Byte DecimalString SpecFloat.
Import ListNotations.

Local Open Scope Z_scope.
Local Open Scope string_scope.

(** ** Python exceptions and results *)

Inductive PyExn : Type :=
| NotImplementedError (msg : string)
| ValueError (msg : string)
| Exception_ (msg : string)
| KeyError (key : string)
| ZeroDivisionError
| RpcError (msg : string).

Inductive Result (A : Type) : Type :=
| Ok (a : A)
| Raise (e : PyExn).

Arguments Ok {A} a.
Arguments Raise {A} e.

(** ** Keys, accounts, enums *)

Definition PublicKey : Type := list byte.

Definition pubkey_eqb (a b : PublicKey) : bool :=
  if list_eq_dec Byte.byte_eq_dec a b then true else false.

(** [solana.account.Account]: a key pair. *)
Record Account : Type := mkAccount
  { secret_key : list byte;
    public_key : PublicKey }.

Inductive Side : Type := Buy | Sell.

Definition side_eqb (a b : Side) : bool :=
  match a, b with
  | Buy, Buy | Sell, Sell => true
  | _, _ => false
  end.

Inductive OrderType : Type := Limit | ImmediateOrCancel | PostOnly.

(** What an attribute of [MarketState] evaluates to.  Every accessor of
    [MarketState] is a method: [self.state.quote_mint()] is a key, while
    [self.state.base_mint], written without the call, is the bound method. *)
Inductive PyObj : Type :=
| KeyObj (k : PublicKey)
| BoundMethod (name : string).

(** [==] between such objects: [PublicKey.__eq__] answers [False] for anything
    that is not a [PublicKey], and a bound method is equal to bound methods
    only. *)
Definition py_eq (a b : PyObj) : bool :=
  match a, b with
  | KeyObj x, KeyObj y => pubkey_eqb x y
  | BoundMethod f, BoundMethod g => String.eqb f g
  | _, _ => false
  end.

(** ** Events and fills ([src.market.types]) *)

Record EventFlags : Type := mkEventFlags
  { fill : bool;
    out : bool;
    bid : bool;
    maker : bool }.

Record Event : Type := mkEvent
  { event_flags : EventFlags;
    open_order_slot : Z;
    fee_tier : Z;
    native_quantity_released : Z;
    native_quantity_paid : Z;
    native_fee_or_rebate : Z;
    order_id : list byte;
    event_public_key : PublicKey;
    client_order_id : Z }.

Record FilledOrder : Type := mkFilledOrder
  { fo_order_id : Z;
    fo_side : Side;
    fo_price : Q;
    fo_size : Q;
    fo_fee_cost : Z }.

Record OpenOrdersAccount : Type := mkOpenOrdersAccount
  { address : PublicKey;
    oo_market : PublicKey;
    oo_owner : PublicKey }.

(** ** Market state

    Modelled from the spec: [MarketState] lives in [src/market/state.py]; the
    record holds what [Market] reads from it.  The two conversions to lots and
    the two decimal multipliers are fields, so every statement below holds for
    whatever [MarketState] computes. *)
Record MarketState : Type := mkMarketState
  { ms_public_key : PublicKey;
    ms_program_id : PublicKey;
    ms_request_queue : PublicKey;
    ms_event_queue : PublicKey;
    ms_bids : PublicKey;
    ms_asks : PublicKey;
    ms_base_vault : PublicKey;
    ms_quote_vault : PublicKey;
    ms_base_mint : PublicKey;
    ms_quote_mint : PublicKey;
    base_spl_token_multiplier : Z;
    quote_spl_token_multiplier : Z;
    base_size_number_to_lots : Z -> Z;
    price_number_to_lots : Z -> Z }.

(** ** Instructions and transactions

    Modelled from the spec: [src.instructions] and
    [make_create_account_instruction] build the payloads; an instruction is
    kept as the parameters it was built from. *)
Record NewOrderParams : Type := mkNewOrderParams
  { no_market : PublicKey;
    no_open_orders : PublicKey;
    no_payer : PublicKey;
    no_owner : PublicKey;
    no_request_queue : PublicKey;
    no_base_vault : PublicKey;
    no_quote_vault : PublicKey;
    no_side : Side;
    no_limit_price : Z;
    no_max_quantity : Z;
    no_order_type : OrderType;
    no_client_id : Z;
    no_program_id : PublicKey }.

Record CancelOrderParams : Type := mkCancelOrderParams
  { co_market : PublicKey;
    co_owner : PublicKey;
    co_open_orders : PublicKey;
    co_request_queue : PublicKey;
    co_side : Side;
    co_order_id : Z;
    co_open_orders_slot : Z;
    co_program_id : PublicKey }.

Record MatchOrdersParams : Type := mkMatchOrdersParams
  { mo_market : PublicKey;
    mo_request_queue : PublicKey;
    mo_event_queue : PublicKey;
    mo_bids : PublicKey;
    mo_asks : PublicKey;
    mo_base_vault : PublicKey;
    mo_quote_vault : PublicKey;
    mo_limit : Z;
    mo_program_id : PublicKey }.

Inductive TransactionInstruction : Type :=
| NewOrderIx (p : NewOrderParams)
| CancelOrderIx (p : CancelOrderParams)
| MatchOrdersIx (p : MatchOrdersParams)
| CreateAccountIx (owner new_account : PublicKey) (lamports : Z) (program_id : PublicKey).

Definition new_order (p : NewOrderParams) : TransactionInstruction := NewOrderIx p.

Definition cancel_order_ix (p : CancelOrderParams) : TransactionInstruction :=
  CancelOrderIx p.

Definition match_orders_ix (p : MatchOrdersParams) : TransactionInstruction :=
  MatchOrdersIx p.

Definition make_create_account_instruction
  (owner_address new_account_address : PublicKey) (lamports : Z) (program_id : PublicKey)
  : TransactionInstruction :=
  CreateAccountIx owner_address new_account_address lamports program_id.

Record Transaction : Type := mkTransaction
  { tx_instructions : list TransactionInstruction }.

Definition Transaction_new : Transaction := mkTransaction [].

Definition Transaction_add (t : Transaction) (i : TransactionInstruction) : Transaction :=
  mkTransaction (tx_instructions t ++ [i]).

(** ** The RPC node and the monad of the client *)

(** One entry per call that leaves the process. *)
Inductive NetCall : Type :=
| CallFindOpenOrders (market owner program_id : PublicKey)
| CallGetMinimumBalance (size : Z)
| CallGetAccountData (addr : PublicKey)
| CallSendTransaction (tx : Transaction) (signers : list Account) (skip_preflight : bool).

Definition is_send (c : NetCall) : bool :=
  match c with CallSendTransaction _ _ _ => true | _ => false end.

(** [solana.rpc.api.Client] and the helpers that wrap it: what the node
    answers.  A response of the JSON RPC is the value under its ["result"]
    key, [None] when the key is absent. *)
Record Client : Type := mkClient
  { rpc_find_open_orders : PublicKey -> PublicKey -> PublicKey -> Result (list OpenOrdersAccount);
    rpc_get_minimum_balance : Z -> Result (option Z);
    rpc_account_data : PublicKey -> Result (list byte);
    rpc_send_transaction : Transaction -> list Account -> bool -> Result (option string) }.

(** The world outside the [Market] object: the calls made so far (oldest
    first), the source of randomness of [Account()] with the number of key
    pairs drawn from it, and the lines logged. *)
Record World : Type := mkWorld
  { net_log : list NetCall;
    key_source : nat -> Account;
    keys_drawn : nat;
    warnings : list string }.

Definition M (A : Type) : Type := World -> Result A * World.

Definition ret {A} (a : A) : M A := fun w => (Ok a, w).

Definition raise {A} (e : PyExn) : M A := fun w => (Raise e, w).

Definition bind {A B} (m : M A) (k : A -> M B) : M B :=
  fun w =>
    match m w with
    | (Ok a, w') => k a w'
    | (Raise e, w') => (Raise e, w')
    end.

Declare Scope py_scope.
Delimit Scope py_scope with py.
Notation "x <- m ;; k" := (bind m (fun x => k))
  (at level 100, m at next level, right associativity) : py_scope.
Notation "m ;;; k" := (bind m (fun _ => k))
  (at level 100, right associativity) : py_scope.
Local Open Scope py_scope.

Definition lift {A} (r : Result A) : M A := fun w => (r, w).

(** A call to the node: logged, then answered. *)
Definition net_call {A} (c : NetCall) (answer : Result A) : M A :=
  fun w => (answer, mkWorld (net_log w ++ [c]) (key_source w) (keys_drawn w) (warnings w)).

Definition log_warning (line : string) : M unit :=
  fun w => (Ok tt, mkWorld (net_log w) (key_source w) (keys_drawn w) (warnings w ++ [line])).

Fixpoint mapM {A B} (f : A -> M B) (l : list A) : M (list B) :=
  match l with
  | [] => ret []
  | x :: xs => y <- f x ;; ys <- mapM f xs ;; ret (y :: ys)
  end.

(** ** Small pieces of Python *)

(** [int.from_bytes(b, "little")]. *)
Fixpoint int_from_bytes_little (b : list byte) : Z :=
  match b with
  | [] => 0
  | x :: rest => Z.of_N (Byte.to_N x) + 256 * int_from_bytes_little rest
  end.

(** [a / b] on integers: the exact quotient.  CPython rounds it to the nearest
    binary64 number, and raises [OverflowError] when that number is not
    finite; the quantities of a decoded event are unsigned integers of 64
    bits and a multiplier is ten to a number of decimals of one byte, and in
    that range the quotient stays within the finite range of binary64 (see
    [parse_fill_event_in_range]). *)
Definition py_truediv (a b : Z) : Result Q :=
  if (b =? 0)%Z then Raise ZeroDivisionError
  else Ok (Qred (inject_Z a / inject_Z b)).

(** The binary64 number that [a / b] evaluates to when [a] and [b] are below
    2^53 in magnitude: both convert exactly and IEEE division rounds the
    quotient to nearest. *)
Definition binary64_truediv (a b : Z) : spec_float :=
  SFdiv 53 1024 (binary_normalize 53 1024 a 0 false) (binary_normalize 53 1024 b 0 false).

(** ["... %d ..." % n]. *)
Definition format_d (before : string) (n : Z) (after : string) : string :=
  (before ++ NilZero.string_of_int (Z.to_int n) ++ after)%string.

(** [if not signature]: [None] and the empty string are falsy. *)
Definition truthy (signature : option string) : bool :=
  match signature with
  | None => false
  | Some s => negb (String.eqb s "")
  end.

Definition py_str (signature : option string) : string :=
  match signature with
  | None => "None"
  | Some s => s
  end.

(** ** The class [Market] *)

Record MarketOpts : Type := mkMarketOpts
  { skip_preflight : bool;
    confirmations : Z }.

Record Market : Type := mkMarket
  { _skip_preflight : bool;
    _confirmations : Z;
    _conn : Client;
    state : MarketState }.

(** [t.Order], as far as cancelling reads it. *)
Record Order : Type := mkOrder
  { ord_order_id : Z;
    ord_side : Side;
    ord_open_order_address : PublicKey;
    ord_open_order_slot : Z }.

Section MarketClass.

Set Default Proof Using "Type".

(** [spl.token.constants.WRAPPED_SOL_MINT]. *)
Variable WRAPPED_SOL_MINT : PublicKey.

(** [OPEN_ORDERS_LAYOUT.sizeof()]. *)
Variable OPEN_ORDERS_LAYOUT_sizeof : Z.

(** [decode_event_queue(bytes_data, limit)] of [_internal/queue.py]. *)
Variable decode_event_queue : list byte -> Z -> Result (list Event).

(** [decode_event_queue(bytes_data)], the limit left to its default. *)
Variable decode_event_queue_default : list byte -> Result (list Event).

(** [t.Request] and [decode_request_queue(bytes_data)] of [_internal/queue.py]. *)
Variable Request : Type.
Variable decode_request_queue : list byte -> Result (list Request).

(** [OrderBook] and [OrderBook.from_bytes(state, bytes_data)] of [orderbook.py]. *)
Variable OrderBook : Type.
Variable OrderBook_from_bytes : MarketState -> list byte -> Result OrderBook.

Definition Market_init (conn : Client) (market_state : MarketState) (opts : MarketOpts)
  : Market :=
  mkMarket (skip_preflight opts) (confirmations opts) conn market_state.

Definition Account_new : M Account :=
  fun w => (Ok (key_source w (keys_drawn w)),
            mkWorld (net_log w) (key_source w) (S (keys_drawn w)) (warnings w)).

Definition load_bytes_data (addr : PublicKey) (conn : Client) : M (list byte) :=
  net_call (CallGetAccountData addr) (rpc_account_data conn addr).

Definition get_minimum_balance_for_rent_exemption (conn : Client) (size : Z)
  : M (option Z) :=
  net_call (CallGetMinimumBalance size) (rpc_get_minimum_balance conn size).

(** [resp["result"]]. *)
Definition get_item_result (resp : option Z) : M Z :=
  match resp with
  | Some v => ret v
  | None => raise (KeyError "result")
  end.

Definition support_srm_fee_discounts (self : Market) : M bool :=
  raise (NotImplementedError "support_srm_fee_discounts not implemented").

Definition find_fee_discount_keys (self : Market) (owner : PublicKey) (cache_duration : Z)
  : M unit :=
  raise (NotImplementedError "find_fee_discount_keys not implemented").

Definition find_best_fee_discount_key (self : Market) (owner : PublicKey)
  (cache_duration : Z) : M unit :=
  raise (NotImplementedError "find_best_fee_discount_key not implemented").

Definition find_open_orders_accounts_for_owner (self : Market) (owner_address : PublicKey)
  : M (list OpenOrdersAccount) :=
  net_call
    (CallFindOpenOrders (ms_public_key (state self)) owner_address
       (ms_program_id (state self)))
    (rpc_find_open_orders (_conn self) (ms_public_key (state self)) owner_address
       (ms_program_id (state self))).

Definition find_quote_token_accounts_for_owner (self : Market) (owner_address : PublicKey)
  (include_unwrapped_sol : bool) : M unit :=
  raise (NotImplementedError "find_quote_token_accounts_for_owner not implemented").

Definition load_orders_for_owner (self : Market) : M (list Order) :=
  raise (NotImplementedError "load_orders_for_owner not implemented").

Definition load_base_token_for_owner (self : Market) : M unit :=
  raise (NotImplementedError "load_base_token_for_owner not implemented").

Definition load_bids (self : Market) : M OrderBook :=
  bytes_data <- load_bytes_data (ms_bids (state self)) (_conn self) ;;
  lift (OrderBook_from_bytes (state self) bytes_data).

Definition load_asks (self : Market) : M OrderBook :=
  bytes_data <- load_bytes_data (ms_asks (state self)) (_conn self) ;;
  lift (OrderBook_from_bytes (state self) bytes_data).

Definition load_event_queue (self : Market) : M (list Event) :=
  bytes_data <- load_bytes_data (ms_event_queue (state self)) (_conn self) ;;
  lift (decode_event_queue_default bytes_data).

Definition load_request_queue (self : Market) : M (list Request) :=
  bytes_data <- load_bytes_data (ms_request_queue (state self)) (_conn self) ;;
  lift (decode_request_queue bytes_data).

(** The local [price_before_fees] of [parse_fill_event]. *)
Definition price_before_fees (event : Event) : Z :=
  if bid (event_flags event) then
    if maker (event_flags event)
    then native_quantity_released event + native_fee_or_rebate event
    else native_quantity_released event - native_fee_or_rebate event
  else
    if maker (event_flags event)
    then native_quantity_released event - native_fee_or_rebate event
    else native_quantity_released event + native_fee_or_rebate event.

Definition parse_fill_event (self : Market) (event : Event) : Result FilledOrder :=
  let side := if bid (event_flags event) then Buy else Sell in
  match
    py_truediv (price_before_fees event * base_spl_token_multiplier (state self))
      (quote_spl_token_multiplier (state self) * native_quantity_paid event)
  with
  | Raise e => Raise e
  | Ok price =>
      match
        py_truediv (native_quantity_paid event) (base_spl_token_multiplier (state self))
      with
      | Raise e => Raise e
      | Ok size =>
          Ok (mkFilledOrder
                (int_from_bytes_little (order_id event))
                side
                price
                size
                (native_fee_or_rebate event
                 * (if maker (event_flags event) then 1 else -1)))
      end
  end.

(** The condition of the comprehension in [load_fills]. *)
Definition is_fill (event : Event) : bool :=
  fill (event_flags event) && (native_quantity_paid event >? 0)%Z.

Definition load_fills (self : Market) (limit : Z) : M (list FilledOrder) :=
  bytes_data <- load_bytes_data (ms_event_queue (state self)) (_conn self) ;;
  events <- lift (decode_event_queue bytes_data limit) ;;
  mapM (fun event => lift (parse_fill_event self event)) (filter is_fill events).

Definition _send_transaction (self : Market) (transaction : Transaction)
  (signers : list Account) : M string :=
  res <- net_call
           (CallSendTransaction transaction signers (_skip_preflight self))
           (rpc_send_transaction (_conn self) transaction signers (_skip_preflight self)) ;;
  (if (_confirmations self >? 0)%Z
   then log_warning "Cannot confirm transaction yet."
   else ret tt) ;;;
  let signature := res in
  if negb (truthy signature)
  then raise (Exception_ "Transaction not sent successfully")
  else ret (py_str signature).

Definition make_place_order_instruction (self : Market) (payer : PublicKey)
  (owner : Account) (order_type : OrderType) (side : Side)
  (limit_price max_quantity client_id : Z) (open_order_account : PublicKey)
  : Result TransactionInstruction :=
  if (base_size_number_to_lots (state self) max_quantity <? 0)%Z
  then Raise (Exception_ (format_d "Size lot " max_quantity " is too small"))
  else if (price_number_to_lots (state self) limit_price <? 0)%Z
  then Raise (Exception_ (format_d "Price lot " limit_price " is too small"))
  else
    Ok (new_order
          (mkNewOrderParams
             (ms_public_key (state self))
             open_order_account
             payer
             (public_key owner)
             (ms_request_queue (state self))
             (ms_base_vault (state self))
             (ms_quote_vault (state self))
             side
             limit_price
             max_quantity
             order_type
             client_id
             (ms_program_id (state self)))).

(** The guard of [place_order] on the wrapped native mint, as written:
    [quote_mint()] is called, [base_mint] is not. *)
Definition wrapped_sol_guard (self : Market) (side : Side) : bool :=
  (side_eqb side Buy
   && py_eq (KeyObj (ms_quote_mint (state self))) (KeyObj WRAPPED_SOL_MINT))
  || (side_eqb side Sell
      && py_eq (BoundMethod "base_mint") (KeyObj WRAPPED_SOL_MINT)).

Definition place_order (self : Market) (payer : PublicKey) (owner : Account)
  (order_type : OrderType) (side : Side) (limit_price max_quantity client_id : Z)
  : M string :=
  let transaction := Transaction_new in
  let signers := [owner] in
  open_order_accounts <- find_open_orders_accounts_for_owner self (public_key owner) ;;
  setup <-
    (match open_order_accounts with
     | [] =>
         new_open_orders_account <- Account_new ;;
         mbfre_resp <- get_minimum_balance_for_rent_exemption (_conn self)
                         OPEN_ORDERS_LAYOUT_sizeof ;;
         balanced_needed <- get_item_result mbfre_resp ;;
         ret (Transaction_add transaction
                (make_create_account_instruction
                   (public_key owner)
                   (public_key new_open_orders_account)
                   balanced_needed
                   (ms_program_id (state self))),
              (signers ++ [new_open_orders_account])%list,
              public_key new_open_orders_account)
     | first :: _ => ret (transaction, signers, address first)
     end) ;;
  let '(transaction, signers, open_orders_address) := setup in
  if pubkey_eqb payer (public_key owner)
  then raise (ValueError "Invalid payer account")
  else if wrapped_sol_guard self side
  then raise (NotImplementedError "WRAPPED_SOL_MINT is currently unsupported")
  else
    instruction <- lift (make_place_order_instruction self payer owner order_type side
                           limit_price max_quantity client_id open_orders_address) ;;
    _send_transaction self (Transaction_add transaction instruction) signers.

Definition cancel_order_by_client_id (self : Market) (owner : string) : M string :=
  raise (NotImplementedError "cancel_order_by_client_id not implemented").

Definition make_cancel_order_instruction (self : Market) (owner : PublicKey) (order : Order)
  : TransactionInstruction :=
  let params :=
    mkCancelOrderParams
      (ms_public_key (state self))
      owner
      (ord_open_order_address order)
      (ms_request_queue (state self))
      (ord_side order)
      (ord_order_id order)
      (ord_open_order_slot order)
      (ms_program_id (state self)) in
  cancel_order_ix params.

Definition make_match_orders_instruction (self : Market) (limit : Z)
  : TransactionInstruction :=
  let params :=
    mkMatchOrdersParams
      (ms_public_key (state self))
      (ms_request_queue (state self))
      (ms_event_queue (state self))
      (ms_bids (state self))
      (ms_asks (state self))
      (ms_base_vault (state self))
      (ms_quote_vault (state self))
      limit
      (ms_program_id (state self)) in
  match_orders_ix params.

Definition cancel_order (self : Market) (owner : Account) (order : Order) : M string :=
  let txn :=
    Transaction_add Transaction_new
      (make_cancel_order_instruction self (public_key owner) order) in
  _send_transaction self txn [owner].

Definition match_orders (self : Market) (fee_payer : Account) (limit : Z) : M string :=
  let txn := Transaction_add Transaction_new (make_match_orders_instruction self limit) in
  _send_transaction self txn [fee_payer].

Definition settle_funds (self : Market) (owner : Account) (open_orders : OpenOrdersAccount)
  (base_wallet quote_wallet : PublicKey) : M string :=
  raise (NotImplementedError "settle_funds not implemented").


(** ** Vocabulary of the properties *)

(** The calls a run added to the log. *)
Definition no_submission (calls : list NetCall) : bool :=
  forallb (fun c => negb (is_send c)) calls.

(** The open-orders lookup answered and, when it found no account, the node
    also told the rent-exempt balance: [place_order] gets as far as its
    checks of the payer and of the mints. *)
Definition setup_succeeds (self : Market) (owner : Account) : bool :=
  match
    rpc_find_open_orders (_conn self) (ms_public_key (state self)) (public_key owner)
      (ms_program_id (state self))
  with
  | Raise _ => false
  | Ok (_ :: _) => true
  | Ok [] =>
      match rpc_get_minimum_balance (_conn self) OPEN_ORDERS_LAYOUT_sizeof with
      | Ok (Some _) => true
      | _ => false
      end
  end.

(** [place_order] from its check of the payer on, once the open-orders
    account is resolved: [transaction] and [signers] as they stand then, and
    the address the order will name. *)
Definition after_setup (self : Market) (payer : PublicKey) (owner : Account)
  (order_type : OrderType) (side : Side) (limit_price max_quantity client_id : Z)
  (transaction : Transaction) (signers : list Account) (open_orders_address : PublicKey)
  : M string :=
  if pubkey_eqb payer (public_key owner)
  then raise (ValueError "Invalid payer account")
  else if wrapped_sol_guard self side
  then raise (NotImplementedError "WRAPPED_SOL_MINT is currently unsupported")
  else
    instruction <- lift (make_place_order_instruction self payer owner order_type side
                           limit_price max_quantity client_id open_orders_address) ;;
    _send_transaction self (Transaction_add transaction instruction) signers.

(** The error with which the checks of [place_order] stop an order whose
    size or price is below zero lots. *)
Definition checks_error (self : Market) (payer : PublicKey) (owner : Account) (side : Side)
  (limit_price max_quantity : Z) : PyExn :=
  if pubkey_eqb payer (public_key owner)
  then ValueError "Invalid payer account"
  else if wrapped_sol_guard self side
  then NotImplementedError "WRAPPED_SOL_MINT is currently unsupported"
  else
    if (base_size_number_to_lots (state self) max_quantity <? 0)%Z
    then Exception_ (format_d "Size lot " max_quantity " is too small")
    else Exception_ (format_d "Price lot " limit_price " is too small").

(** The lookup with which [place_order] starts. *)
Definition lookup_call (self : Market) (owner : Account) : NetCall :=
  CallFindOpenOrders (ms_public_key (state self)) (public_key owner)
    (ms_program_id (state self)).

(** The calls that follow the lookup before the checks of [place_order]: the
    rent query, when the lookup found no account. *)
Definition setup_calls (self : Market) (owner : Account) : list NetCall :=
  match
    rpc_find_open_orders (_conn self) (ms_public_key (state self)) (public_key owner)
      (ms_program_id (state self))
  with
  | Ok [] => [CallGetMinimumBalance OPEN_ORDERS_LAYOUT_sizeof]
  | _ => []
  end.

(** The error with which [place_order] stops before its checks, if it does:
    that of the lookup, that of the rent query, or the missing ["result"] of
    its response. *)
Definition setup_error (self : Market) (owner : Account) : option PyExn :=
  match
    rpc_find_open_orders (_conn self) (ms_public_key (state self)) (public_key owner)
      (ms_program_id (state self))
  with
  | Raise e => Some e
  | Ok (_ :: _) => None
  | Ok [] =>
      match rpc_get_minimum_balance (_conn self) OPEN_ORDERS_LAYOUT_sizeof with
      | Raise e => Some e
      | Ok None => Some (KeyError "result")
      | Ok (Some _) => None
      end
  end.

(** An unsigned integer of 64 bits. *)
Definition u64 (z : Z) : Prop := (0 <= z < 2 ^ 64)%Z.

(** An event as the queue layout holds it: its three quantities are unsigned
    integers of 64 bits. *)
Definition event_in_range (event : Event) : Prop :=
  u64 (native_quantity_released event)
  /\ u64 (native_quantity_paid event)
  /\ u64 (native_fee_or_rebate event).

(** A multiplier is ten to the number of decimals of a mint, a number of one
    byte. *)
Definition multiplier_in_range (m : Z) : Prop := (1 <= m <= 10 ^ 255)%Z.

Definition market_in_range (self : Market) : Prop :=
  multiplier_in_range (base_spl_token_multiplier (state self))
  /\ multiplier_in_range (quote_spl_token_multiplier (state self)).

(** The message of [make_place_order_instruction] for lots below zero. *)
Definition lot_error (self : Market) (limit_price max_quantity : Z) : PyExn :=
  if (base_size_number_to_lots (state self) max_quantity <? 0)%Z
  then Exception_ (format_d "Size lot " max_quantity " is too small")
  else Exception_ (format_d "Price lot " limit_price " is too small").

(** The operations the class declares and does not implement, with their
    arguments, and an order on a wrapped native mint. *)
Inductive Unsupported : Type :=
| SupportSrmFeeDiscounts
| FindFeeDiscountKeys (owner : PublicKey) (cache_duration : Z)
| FindBestFeeDiscountKey (owner : PublicKey) (cache_duration : Z)
| FindQuoteTokenAccountsForOwner (owner_address : PublicKey) (include_unwrapped_sol : bool)
| LoadOrdersForOwner
| LoadBaseTokenForOwner
| CancelOrderByClientId (owner : string)
| SettleFunds (owner : Account) (open_orders : OpenOrdersAccount)
    (base_wallet quote_wallet : PublicKey)
| PlaceOrderWrapped (payer : PublicKey) (owner : Account) (order_type : OrderType)
    (limit_price max_quantity client_id : Z).

Definition is_stub (u : Unsupported) : bool :=
  match u with PlaceOrderWrapped _ _ _ _ _ _ => false | _ => true end.

(** The outcome of a run, its value forgotten. *)
Definition outcome {A} (m : M A) (w : World) : Result unit * World :=
  match m w with
  | (Ok _, w') => (Ok tt, w')
  | (Raise e, w') => (Raise e, w')
  end.

Definition invoke (self : Market) (u : Unsupported) : World -> Result unit * World :=
  match u with
  | SupportSrmFeeDiscounts => outcome (support_srm_fee_discounts self)
  | FindFeeDiscountKeys owner cache_duration =>
      outcome (find_fee_discount_keys self owner cache_duration)
  | FindBestFeeDiscountKey owner cache_duration =>
      outcome (find_best_fee_discount_key self owner cache_duration)
  | FindQuoteTokenAccountsForOwner owner_address include_unwrapped_sol =>
      outcome (find_quote_token_accounts_for_owner self owner_address include_unwrapped_sol)
  | LoadOrdersForOwner => outcome (load_orders_for_owner self)
  | LoadBaseTokenForOwner => outcome (load_base_token_for_owner self)
  | CancelOrderByClientId owner => outcome (cancel_order_by_client_id self owner)
  | SettleFunds owner open_orders base_wallet quote_wallet =>
      outcome (settle_funds self owner open_orders base_wallet quote_wallet)
  | PlaceOrderWrapped payer owner order_type limit_price max_quantity client_id =>
      outcome (place_order self payer owner order_type Buy limit_price max_quantity
                 client_id)
  end.

(** From [w] to [w'] the account at [addr] was read, and nothing else
    happened. *)
Definition only_read (addr : PublicKey) (w w' : World) : Prop :=
  net_log w' = (net_log w ++ [CallGetAccountData addr])%list
  /\ key_source w' = key_source w
  /\ keys_drawn w' = keys_drawn w
  /\ warnings w' = warnings w.

(** What [_send_transaction] makes of the submitter's answer. *)
Definition send_outcome (answer : Result (option string)) : Result string :=
  match answer with
  | Raise e => Raise e
  | Ok signature =>
      if truthy signature then Ok (py_str signature)
      else Raise (Exception_ "Transaction not sent successfully")
  end.

(** ** Fixtures *)

Definition fx_key (b : byte) : PublicKey := repeat b 32.

Definition fx_wsol : PublicKey := fx_key "S"%byte.

Definition fx_layout_size : Z := 3228.

Definition fx_state (base_mint quote_mint : PublicKey) : MarketState :=
  mkMarketState
    (fx_key x01) (fx_key x02) (fx_key x03) (fx_key x04) (fx_key x05) (fx_key x06)
    (fx_key x07) (fx_key x08) base_mint quote_mint
    1 1
    (fun size => size / 100)%Z
    (fun price => price * 100 / 10)%Z.

Definition fx_owner : Account := mkAccount (repeat x11 32) (fx_key x21).

Definition fx_payer : PublicKey := fx_key x31.

Definition fx_open_orders : OpenOrdersAccount :=
  mkOpenOrdersAccount (fx_key x41) (fx_key x01) (fx_key x21).

Definition fx_signature : string := "5VERv8NMvzbJ".

Definition fx_client (found : list OpenOrdersAccount) : Client :=
  mkClient
    (fun _ _ _ => Ok found)
    (fun _ => Ok (Some 23357760%Z))
    (fun _ => Ok [])
    (fun _ _ _ => Ok (Some fx_signature)).

Definition fx_market (base_mint quote_mint : PublicKey) (found : list OpenOrdersAccount)
  : Market :=
  mkMarket false 0 (fx_client found) (fx_state base_mint quote_mint).

Definition fx_new_account : Account := mkAccount (repeat x51 32) (fx_key x52).

Definition fx_world : World := mkWorld [] (fun _ => fx_new_account) 0 [].

Definition fx_event (is_fill_ev is_bid is_maker : bool) (paid : Z) : Event :=
  mkEvent (mkEventFlags is_fill_ev (negb is_fill_ev) is_bid is_maker)
    0 0 1000 paid 10 [x07; x01] (fx_key x41) 0.

Definition fx_events : list Event :=
  [ fx_event true true true 500;
    fx_event false true false 500;
    fx_event true false false 0;
    fx_event true false false 250 ].

Definition fx_decode (bytes_data : list byte) (limit : Z) : Result (list Event) :=
  Ok fx_events.

(** A node whose three answers to [place_order] are given. *)
Definition fx_client_with (lookup : Result (list OpenOrdersAccount))
  (rent : Result (option Z)) (sent : Result (option string)) : Client :=
  mkClient (fun _ _ _ => lookup) (fun _ => rent) (fun _ => Ok [x2a]) (fun _ _ _ => sent).

Definition fx_market_with (confirmations_wanted : Z)
  (lookup : Result (list OpenOrdersAccount)) (rent : Result (option Z))
  (sent : Result (option string)) : Market :=
  mkMarket true confirmations_wanted (fx_client_with lookup rent sent)
    (fx_state (fx_key x09) (fx_key x0a)).

Definition fx_order : Order := mkOrder 4660 Sell (fx_key x41) 3.

Definition fx_decode_failure : PyExn := Exception_ "event queue header is malformed".

Definition fx_decode_bad (bytes_data : list byte) (limit : Z) : Result (list Event) :=
  Raise fx_decode_failure.

Definition fx_node_down : PyExn := RpcError "connection refused".

(** ** What the specification says where the code says otherwise *)

(** A taker's fee is taken off a sale and put on a purchase. *)
Definition taker_fee_off_sale_on_purchase (event : Event) : Prop :=
  maker (event_flags event) = false ->
  (bid (event_flags event) = false ->
   price_before_fees event
   = (native_quantity_released event - native_fee_or_rebate event)%Z)
  /\ (bid (event_flags event) = true ->
      price_before_fees event
      = (native_quantity_released event + native_fee_or_rebate event)%Z).

(** A price or a size of less than one lot. *)
Definition lots_too_small (self : Market) (limit_price max_quantity : Z) : Prop :=
  (price_number_to_lots (state self) limit_price < 1)%Z
  \/ (base_size_number_to_lots (state self) max_quantity < 1)%Z.

(** The lot-size error comes before any call to the node. *)
Definition lot_error_before_network (self : Market) (payer : PublicKey) (owner : Account)
  (order_type : OrderType) (side : Side) (limit_price max_quantity client_id : Z)
  (w : World) : Prop :=
  lots_too_small self limit_price max_quantity ->
  exists e w',
    place_order self payer owner order_type side limit_price max_quantity client_id w
    = (Raise e, w')
    /\ net_log w' = net_log w.

(** The payer being the owner, the call raises the invalid-payer error and
    submits nothing. *)
Definition invalid_payer_is_reported (self : Market) (payer : PublicKey) (owner : Account)
  (order_type : OrderType) (side : Side) (limit_price max_quantity client_id : Z)
  (w : World) : Prop :=
  payer = public_key owner ->
  exists w',
    place_order self payer owner order_type side limit_price max_quantity client_id w
    = (Raise (ValueError "Invalid payer account"), w')
    /\ forallb (fun c => negb (is_send c))
         (skipn (List.length (net_log w)) (net_log w'))
       = true.

(** An unsupported operation fails as such and leaves the world as it was. *)
Definition fails_without_effect (self : Market) (u : Unsupported) (w : World) : Prop :=
  exists msg, invoke self u w = (Raise (NotImplementedError msg), w).

(** ** Properties *)

Lemma pubkey_eqb_eq (a b : PublicKey) : pubkey_eqb a b = true <-> a = b.
Proof.
  unfold pubkey_eqb. destruct (list_eq_dec Byte.byte_eq_dec a b); split; congruence.
Qed.

Lemma pubkey_eqb_refl (a : PublicKey) : pubkey_eqb a a = true.
Proof. now apply pubkey_eqb_eq. Qed.

Lemma pubkey_eqb_neq (a b : PublicKey) : pubkey_eqb a b = false <-> a <> b.
Proof.
  unfold pubkey_eqb. destruct (list_eq_dec Byte.byte_eq_dec a b); split; congruence.
Qed.

(** *** Fill parsing *)

Lemma py_truediv_nonzero (a b : Z) :
  b <> 0%Z -> py_truediv a b = Ok (Qred (inject_Z a / inject_Z b)).
Proof.
  intros Hb. unfold py_truediv. destruct (Z.eqb_spec b 0); [contradiction | reflexivity].
Qed.

Lemma parse_fill_event_total (self : Market) (event : Event) :
  base_spl_token_multiplier (state self) <> 0%Z ->
  quote_spl_token_multiplier (state self) <> 0%Z ->
  native_quantity_paid event <> 0%Z ->
  exists f, parse_fill_event self event = Ok f.
Proof.
  intros Hb Hq Hp. unfold parse_fill_event.
  rewrite py_truediv_nonzero by nia.
  rewrite py_truediv_nonzero by assumption.
  eexists; reflexivity.
Qed.

(** C2.  A fill with the bid and maker flags set, 1000 released, a fee of 10
    and 500 paid, on a market whose two multipliers are 1, parses to a
    purchase at price 1010/500 = 2.02, of size 500, with a fee cost of 10. *)
Theorem parse_fill_event_bid_maker (self : Market) (event : Event) :
  base_spl_token_multiplier (state self) = 1%Z ->
  quote_spl_token_multiplier (state self) = 1%Z ->
  bid (event_flags event) = true ->
  maker (event_flags event) = true ->
  native_quantity_released event = 1000%Z ->
  native_fee_or_rebate event = 10%Z ->
  native_quantity_paid event = 500%Z ->
  price_before_fees event = 1010%Z
  /\ exists f,
      parse_fill_event self event = Ok f
      /\ fo_side f = Buy
      /\ fo_price f == 1010 # 500
      /\ fo_price f == 2.02
      /\ fo_size f == 500 # 1
      /\ fo_fee_cost f = 10%Z.
Proof.
  intros Hb Hq Hbid Hmk Hrel Hfee Hpaid.
  unfold parse_fill_event, price_before_fees.
  rewrite Hb, Hq, Hbid, Hmk, Hrel, Hfee, Hpaid.
  split; [reflexivity |].
  eexists. split; [reflexivity |].
  cbn [fo_side fo_price fo_size fo_fee_cost].
  repeat split; reflexivity.
Qed.

(** C3, as the code has it.  For an event whose maker flag is not set, the
    price before fees is the released quantity plus the fee for a sale (bid
    flag not set) and the released quantity minus the fee for a purchase (bid
    flag set). *)
Theorem price_before_fees_taker (event : Event) :
  maker (event_flags event) = false ->
  price_before_fees event
  = if bid (event_flags event)
    then (native_quantity_released event - native_fee_or_rebate event)%Z
    else (native_quantity_released event + native_fee_or_rebate event)%Z.
Proof.
  intros Hmk. unfold price_before_fees. rewrite Hmk.
  destruct (bid (event_flags event)); reflexivity.
Qed.

Lemma price_before_fees_maker (event : Event) :
  maker (event_flags event) = true ->
  price_before_fees event
  = if bid (event_flags event)
    then (native_quantity_released event + native_fee_or_rebate event)%Z
    else (native_quantity_released event - native_fee_or_rebate event)%Z.
Proof.
  intros Hmk. unfold price_before_fees. rewrite Hmk.
  destruct (bid (event_flags event)); reflexivity.
Qed.

(** *** Loading fills *)

Lemma is_fill_spec (event : Event) :
  is_fill event = true
  <-> fill (event_flags event) = true /\ (0 < native_quantity_paid event)%Z.
Proof.
  unfold is_fill. rewrite andb_true_iff, Z.gtb_ltb, Z.ltb_lt. reflexivity.
Qed.

Lemma mapM_lift {A B} (f : A -> Result B) (l : list A) (w : World) :
  Forall (fun x => exists y, f x = Ok y) l ->
  exists ys,
    mapM (fun x => lift (f x)) l w = (Ok ys, w)
    /\ Forall2 (fun x y => f x = Ok y) l ys.
Proof.
  induction 1 as [| x xs [y Hy] _ [ys [Hrun Hall]]].
  - exists []. split; [reflexivity | constructor].
  - exists (y :: ys). split.
    + cbn [mapM]. unfold bind at 1. unfold lift at 1. rewrite Hy.
      unfold bind at 1. rewrite Hrun. reflexivity.
    + constructor; assumption.
Qed.

(** C4.  Once the event queue is read and decoded, [load_fills] returns, for
    the decoded events whose fill flag is set and whose paid quantity is
    above zero, taken in the order of the decoded queue, the fill that
    [parse_fill_event] makes of each; the multipliers of a market state are
    powers of ten, hence not zero. *)
Theorem load_fills_filters_and_parses (self : Market) (limit : Z) (w : World)
  (bytes_data : list byte) (events : list Event) :
  base_spl_token_multiplier (state self) <> 0%Z ->
  quote_spl_token_multiplier (state self) <> 0%Z ->
  rpc_account_data (_conn self) (ms_event_queue (state self)) = Ok bytes_data ->
  decode_event_queue bytes_data limit = Ok events ->
  exists fills,
    fst (load_fills self limit w) = Ok fills
    /\ Forall2 (fun event f => parse_fill_event self event = Ok f)
         (filter (fun event =>
                    fill (event_flags event) && (0 <? native_quantity_paid event)%Z)
            events)
         fills.
Proof.
  intros Hb Hq Hread Hdec.
  assert (Hsame : filter (fun event =>
                            fill (event_flags event) && (0 <? native_quantity_paid event)%Z)
                    events
                  = filter is_fill events).
  { apply filter_ext. intros e. unfold is_fill. now rewrite Z.gtb_ltb. }
  rewrite Hsame.
  unfold load_fills, load_bytes_data.
  unfold bind at 1. unfold net_call at 1. rewrite Hread.
  unfold bind at 1. unfold lift at 1. rewrite Hdec.
  set (w1 := mkWorld _ _ _ _).
  destruct (mapM_lift (parse_fill_event self) (filter is_fill events) w1)
    as [fills [Hrun Hall]].
  - apply Forall_forall. intros e He. apply filter_In in He as [_ He].
    apply is_fill_spec in He as [_ Hpaid].
    apply parse_fill_event_total; [assumption | assumption | lia].
  - exists fills. rewrite Hrun. split; [reflexivity | exact Hall].
Qed.

(** *** Building the order instruction *)

Lemma make_place_order_instruction_negative (self : Market) (payer : PublicKey)
  (owner : Account) (order_type : OrderType) (side : Side)
  (limit_price max_quantity client_id : Z) (open_order_account : PublicKey) :
  (base_size_number_to_lots (state self) max_quantity < 0)%Z
  \/ (price_number_to_lots (state self) limit_price < 0)%Z ->
  make_place_order_instruction self payer owner order_type side limit_price max_quantity
    client_id open_order_account
  = Raise (lot_error self limit_price max_quantity).
Proof.
  intros H. unfold make_place_order_instruction, lot_error.
  destruct (Z.ltb_spec (base_size_number_to_lots (state self) max_quantity) 0);
    [reflexivity |].
  destruct (Z.ltb_spec (price_number_to_lots (state self) limit_price) 0);
    [reflexivity | lia].
Qed.

Lemma make_place_order_instruction_nonneg (self : Market) (payer : PublicKey)
  (owner : Account) (order_type : OrderType) (side : Side)
  (limit_price max_quantity client_id : Z) (open_order_account : PublicKey) :
  (0 <= base_size_number_to_lots (state self) max_quantity)%Z ->
  (0 <= price_number_to_lots (state self) limit_price)%Z ->
  make_place_order_instruction self payer owner order_type side limit_price max_quantity
    client_id open_order_account
  = Ok (new_order
          (mkNewOrderParams (ms_public_key (state self)) open_order_account payer
             (public_key owner) (ms_request_queue (state self))
             (ms_base_vault (state self)) (ms_quote_vault (state self)) side limit_price
             max_quantity order_type client_id (ms_program_id (state self)))).
Proof.
  intros Hs Hp. unfold make_place_order_instruction.
  destruct (Z.ltb_spec (base_size_number_to_lots (state self) max_quantity) 0); [lia |].
  destruct (Z.ltb_spec (price_number_to_lots (state self) limit_price) 0); [lia |].
  reflexivity.
Qed.

(** C1, on the code.  A price or a size of zero lots, which is less than one
    lot, passes the guard of [make_place_order_instruction]: the guard tests
    [< 0], and the instruction is built. *)
Theorem make_place_order_instruction_zero_lots (self : Market) (payer : PublicKey)
  (owner : Account) (order_type : OrderType) (side : Side)
  (limit_price max_quantity client_id : Z) (open_order_account : PublicKey) :
  lots_too_small self limit_price max_quantity ->
  (0 <= base_size_number_to_lots (state self) max_quantity)%Z ->
  (0 <= price_number_to_lots (state self) limit_price)%Z ->
  exists p,
    make_place_order_instruction self payer owner order_type side limit_price max_quantity
      client_id open_order_account
    = Ok (NewOrderIx p)
    /\ no_limit_price p = limit_price
    /\ no_max_quantity p = max_quantity.
Proof.
  intros _ Hs Hp.
  rewrite make_place_order_instruction_nonneg by assumption.
  eexists. split; [reflexivity |]. split; reflexivity.
Qed.

(** *** Submitting a transaction *)

Lemma send_transaction_run (self : Market) (transaction : Transaction)
  (signers : list Account) (w : World) :
  exists w',
    _send_transaction self transaction signers w
    = (match
         rpc_send_transaction (_conn self) transaction signers (_skip_preflight self)
       with
       | Raise e => Raise e
       | Ok signature =>
           if truthy signature then Ok (py_str signature)
           else Raise (Exception_ "Transaction not sent successfully")
       end, w')
    /\ net_log w'
       = (net_log w ++ [CallSendTransaction transaction signers (_skip_preflight self)])%list
    /\ keys_drawn w' = keys_drawn w
    /\ key_source w' = key_source w.
Proof.
  unfold _send_transaction, bind, net_call, log_warning, ret, raise.
  destruct (rpc_send_transaction _ _ _ _) as [signature | e].
  - destruct (_confirmations self >? 0)%Z; destruct (truthy signature); cbn;
      eexists; (split; [reflexivity |]); cbn; auto.
  - eexists. split; [reflexivity |]. cbn; auto.
Qed.

(** C8.  [_send_transaction] calls the submitter once, whatever it answers.
    When the response holds no signature the call fails with the exception
    "Transaction not sent successfully"; when it holds one, a string that is
    not empty, the call returns that string; when the submitter fails, its
    error is passed on. *)
Theorem send_transaction_once (self : Market) (transaction : Transaction)
  (signers : list Account) (w : World) :
  let answer :=
    rpc_send_transaction (_conn self) transaction signers (_skip_preflight self) in
  let run := _send_transaction self transaction signers w in
  net_log (snd run)
  = (net_log w ++ [CallSendTransaction transaction signers (_skip_preflight self)])%list
  /\ (answer = Ok None ->
      fst run = Raise (Exception_ "Transaction not sent successfully"))
  /\ (forall signature,
        answer = Ok (Some signature) -> signature <> "" -> fst run = Ok signature)
  /\ (forall e, answer = Raise e -> fst run = Raise e).
Proof.
  intros answer run.
  destruct (send_transaction_run self transaction signers w) as [w' [Hrun [Hlog _]]].
  subst run. rewrite Hrun. cbn [fst snd]. fold answer.
  split; [exact Hlog |].
  split; [| split].
  - intros ->. reflexivity.
  - intros signature -> Hne. cbn.
    destruct (String.eqb_spec signature ""); [contradiction | reflexivity].
  - intros e ->. reflexivity.
Qed.

(** The two callers that build a transaction of one instruction submit it
    once as well. *)
Lemma cancel_order_submits_once (self : Market) (owner : Account) (order : Order)
  (w : World) :
  net_log (snd (cancel_order self owner order w))
  = (net_log w
     ++ [CallSendTransaction
           (mkTransaction [make_cancel_order_instruction self (public_key owner) order])
           [owner] (_skip_preflight self)])%list.
Proof.
  unfold cancel_order. cbn zeta.
  match goal with
  | |- context [_send_transaction ?s ?t ?sg ?w0] =>
      destruct (send_transaction_run s t sg w0) as [w' [Hrun [Hlog _]]]
  end.
  rewrite Hrun. exact Hlog.
Qed.

Lemma match_orders_submits_once (self : Market) (fee_payer : Account) (limit : Z)
  (w : World) :
  net_log (snd (match_orders self fee_payer limit w))
  = (net_log w
     ++ [CallSendTransaction
           (mkTransaction [make_match_orders_instruction self limit])
           [fee_payer] (_skip_preflight self)])%list.
Proof.
  unfold match_orders. cbn zeta.
  match goal with
  | |- context [_send_transaction ?s ?t ?sg ?w0] =>
      destruct (send_transaction_run s t sg w0) as [w' [Hrun [Hlog _]]]
  end.
  rewrite Hrun. exact Hlog.
Qed.

(** *** Placing an order *)

Lemma place_order_unfold (self : Market) (payer : PublicKey) (owner : Account)
  (order_type : OrderType) (side : Side) (limit_price max_quantity client_id : Z)
  (w : World) :
  place_order self payer owner order_type side limit_price max_quantity client_id w
  = let w1 :=
      mkWorld (net_log w ++ [lookup_call self owner]) (key_source w) (keys_drawn w)
        (warnings w) in
    match
      rpc_find_open_orders (_conn self) (ms_public_key (state self)) (public_key owner)
        (ms_program_id (state self))
    with
    | Raise e => (Raise e, w1)
    | Ok (first :: _) =>
        after_setup self payer owner order_type side limit_price max_quantity client_id
          Transaction_new [owner] (address first) w1
    | Ok [] =>
        let new_open_orders_account := key_source w (keys_drawn w) in
        let w2 :=
          mkWorld
            ((net_log w ++ [lookup_call self owner])
             ++ [CallGetMinimumBalance OPEN_ORDERS_LAYOUT_sizeof])
            (key_source w) (S (keys_drawn w)) (warnings w) in
        match rpc_get_minimum_balance (_conn self) OPEN_ORDERS_LAYOUT_sizeof with
        | Raise e => (Raise e, w2)
        | Ok None => (Raise (KeyError "result"), w2)
        | Ok (Some balanced_needed) =>
            after_setup self payer owner order_type side limit_price max_quantity
              client_id
              (Transaction_add Transaction_new
                 (make_create_account_instruction (public_key owner)
                    (public_key new_open_orders_account) balanced_needed
                    (ms_program_id (state self))))
              [owner; new_open_orders_account]
              (public_key new_open_orders_account) w2
        end
    end.
Proof.
  unfold place_order, find_open_orders_accounts_for_owner, lookup_call.
  unfold bind at 1. unfold net_call at 1.
  destruct (rpc_find_open_orders _ _ _ _) as [[| first rest] | e]; cbn zeta.
  - unfold bind at 1. unfold bind at 1. unfold Account_new at 1. cbn [keys_drawn key_source net_log warnings].
    unfold bind at 1. unfold get_minimum_balance_for_rent_exemption, net_call at 1.
    cbn [keys_drawn key_source net_log warnings].
    destruct (rpc_get_minimum_balance _ _) as [[balanced_needed |] | e].
    + unfold bind at 1. cbn [get_item_result]. unfold ret at 1. unfold ret at 1.
      reflexivity.
    + reflexivity.
    + reflexivity.
  - unfold bind at 1. unfold ret at 1. reflexivity.
  - reflexivity.
Qed.

Lemma after_setup_stops (self : Market) (payer : PublicKey) (owner : Account)
  (order_type : OrderType) (side : Side) (limit_price max_quantity client_id : Z)
  (transaction : Transaction) (signers : list Account) (open_orders_address : PublicKey)
  (w : World) :
  payer = public_key owner
  \/ wrapped_sol_guard self side = true
  \/ (base_size_number_to_lots (state self) max_quantity < 0)%Z
  \/ (price_number_to_lots (state self) limit_price < 0)%Z ->
  after_setup self payer owner order_type side limit_price max_quantity client_id
    transaction signers open_orders_address w
  = (Raise (checks_error self payer owner side limit_price max_quantity), w).
Proof.
  intros H. unfold after_setup, checks_error.
  destruct (pubkey_eqb payer (public_key owner)) eqn:Hpayer; [reflexivity |].
  destruct (wrapped_sol_guard self side) eqn:Hguard; [reflexivity |].
  destruct H as [H | [H | H]].
  - apply pubkey_eqb_eq in H. congruence.
  - discriminate.
  - unfold bind, lift.
    rewrite make_place_order_instruction_negative by exact H.
    reflexivity.
Qed.

Lemma after_setup_submits (self : Market) (payer : PublicKey) (owner : Account)
  (order_type : OrderType) (side : Side) (limit_price max_quantity client_id : Z)
  (transaction : Transaction) (signers : list Account) (open_orders_address : PublicKey)
  (w : World) :
  payer <> public_key owner ->
  wrapped_sol_guard self side = false ->
  (0 <= base_size_number_to_lots (state self) max_quantity)%Z ->
  (0 <= price_number_to_lots (state self) limit_price)%Z ->
  after_setup self payer owner order_type side limit_price max_quantity client_id
    transaction signers open_orders_address w
  = _send_transaction self
      (Transaction_add transaction
         (new_order
            (mkNewOrderParams (ms_public_key (state self)) open_orders_address payer
               (public_key owner) (ms_request_queue (state self))
               (ms_base_vault (state self)) (ms_quote_vault (state self)) side
               limit_price max_quantity order_type client_id
               (ms_program_id (state self)))))
      signers w.
Proof.
  intros Hpayer Hguard Hs Hp. unfold after_setup.
  apply pubkey_eqb_neq in Hpayer. rewrite Hpayer, Hguard.
  unfold bind at 1. unfold lift.
  rewrite make_place_order_instruction_nonneg by assumption.
  reflexivity.
Qed.

(** An order that one of the checks stops: the lookup of the open-orders
    accounts has been made, and the rent query after it when no account was
    found, nothing has been submitted, and the error is that of the check
    whenever the node answered the two. *)
Lemma place_order_stopped (self : Market) (payer : PublicKey) (owner : Account)
  (order_type : OrderType) (side : Side) (limit_price max_quantity client_id : Z)
  (w : World) :
  payer = public_key owner
  \/ wrapped_sol_guard self side = true
  \/ (base_size_number_to_lots (state self) max_quantity < 0)%Z
  \/ (price_number_to_lots (state self) limit_price < 0)%Z ->
  exists e calls w',
    place_order self payer owner order_type side limit_price max_quantity client_id w
    = (Raise e, w')
    /\ net_log w' = (net_log w ++ lookup_call self owner :: calls)%list
    /\ no_submission calls = true
    /\ (setup_succeeds self owner = true ->
        e = checks_error self payer owner side limit_price max_quantity).
Proof.
  intros H. rewrite place_order_unfold. unfold setup_succeeds. cbn zeta.
  destruct (rpc_find_open_orders _ _ _ _) as [[| first rest] | e].
  - destruct (rpc_get_minimum_balance _ _) as [[balanced_needed |] | e].
    + rewrite after_setup_stops by exact H.
      eexists. exists [CallGetMinimumBalance OPEN_ORDERS_LAYOUT_sizeof]. eexists.
      split; [reflexivity |]. cbn [net_log]. rewrite <- app_assoc.
      split; [reflexivity |]. split; [reflexivity | reflexivity].
    + eexists. exists [CallGetMinimumBalance OPEN_ORDERS_LAYOUT_sizeof]. eexists.
      split; [reflexivity |]. cbn [net_log]. rewrite <- app_assoc.
      split; [reflexivity |]. split; [reflexivity | discriminate].
    + eexists. exists [CallGetMinimumBalance OPEN_ORDERS_LAYOUT_sizeof]. eexists.
      split; [reflexivity |]. cbn [net_log]. rewrite <- app_assoc.
      split; [reflexivity |]. split; [reflexivity | discriminate].
  - rewrite after_setup_stops by exact H.
    eexists. exists []. eexists.
    split; [reflexivity |]. cbn [net_log].
    split; [reflexivity |]. split; [reflexivity | reflexivity].
  - eexists. exists []. eexists.
    split; [reflexivity |]. cbn [net_log].
    split; [reflexivity |]. split; [reflexivity | discriminate].
Qed.

Lemma wrapped_sol_guard_buy (self : Market) :
  wrapped_sol_guard self Buy = pubkey_eqb (ms_quote_mint (state self)) WRAPPED_SOL_MINT.
Proof.
  unfold wrapped_sol_guard. cbn. now rewrite orb_false_r.
Qed.

Lemma wrapped_sol_guard_sell (self : Market) : wrapped_sol_guard self Sell = false.
Proof. reflexivity. Qed.

Lemma setup_succeeds_error (self : Market) (owner : Account) :
  setup_succeeds self owner = true <-> setup_error self owner = None.
Proof.
  unfold setup_succeeds, setup_error.
  destruct (rpc_find_open_orders _ _ _ _) as [[| first others] | e].
  - destruct (rpc_get_minimum_balance _ _) as [[balanced_needed |] | e];
      split; congruence.
  - split; reflexivity.
  - split; discriminate.
Qed.

Lemma no_submission_setup_calls (self : Market) (owner : Account) :
  no_submission (setup_calls self owner) = true.
Proof.
  unfold setup_calls.
  destruct (rpc_find_open_orders _ _ _ _) as [[| first others] | e]; reflexivity.
Qed.

(** An order that one of the checks would stop: the error is that of the
    setup when the setup fails, that of the first check that refuses the
    order otherwise, and the calls are the lookup and those of the setup. *)
Lemma place_order_stops_exactly (self : Market) (payer : PublicKey)
  (owner : Account) (order_type : OrderType) (side : Side)
  (limit_price max_quantity client_id : Z) (w : World) :
  payer = public_key owner
  \/ wrapped_sol_guard self side = true
  \/ (base_size_number_to_lots (state self) max_quantity < 0)%Z
  \/ (price_number_to_lots (state self) limit_price < 0)%Z ->
  exists w',
    place_order self payer owner order_type side limit_price max_quantity client_id w
    = (Raise
         match setup_error self owner with
         | Some e => e
         | None => checks_error self payer owner side limit_price max_quantity
         end, w')
    /\ net_log w' = (net_log w ++ lookup_call self owner :: setup_calls self owner)%list.
Proof.
  intros H. rewrite place_order_unfold. unfold setup_error, setup_calls. cbn zeta.
  destruct (rpc_find_open_orders _ _ _ _) as [[| first others] | e].
  - destruct (rpc_get_minimum_balance _ _) as [[balanced_needed |] | e];
      [rewrite after_setup_stops by exact H | |];
      eexists; (split; [reflexivity |]); cbn [net_log]; rewrite <- app_assoc;
      reflexivity.
  - rewrite after_setup_stops by exact H.
    eexists. split; reflexivity.
  - eexists. split; reflexivity.
Qed.

(** C5, as the code has it.  An order whose size or price converts to lots
    below zero fails and nothing is submitted.  The calls to the node are the
    lookup of the open-orders accounts and, exactly when it found no account,
    the rent query after it: they come before the lot validation.  The error
    is that of the lookup or of the rent query when one of them failed
    ([KeyError] when the rent response has no result); otherwise the
    invalid-payer error when the payer is the owner; otherwise the
    unsupported-operation error when the wrapped-mint guard fires; otherwise
    the lot-size error. *)
Theorem place_order_lot_error_after_lookup (self : Market) (payer : PublicKey)
  (owner : Account) (order_type : OrderType) (side : Side)
  (limit_price max_quantity client_id : Z) (w : World) :
  (base_size_number_to_lots (state self) max_quantity < 0)%Z
  \/ (price_number_to_lots (state self) limit_price < 0)%Z ->
  exists w',
    place_order self payer owner order_type side limit_price max_quantity client_id w
    = (Raise
         match setup_error self owner with
         | Some e => e
         | None =>
             if pubkey_eqb payer (public_key owner)
             then ValueError "Invalid payer account"
             else if wrapped_sol_guard self side
             then NotImplementedError "WRAPPED_SOL_MINT is currently unsupported"
             else lot_error self limit_price max_quantity
         end, w')
    /\ net_log w' = (net_log w ++ lookup_call self owner :: setup_calls self owner)%list
    /\ no_submission (setup_calls self owner) = true.
Proof.
  intros H.
  destruct (place_order_stops_exactly self payer owner order_type side limit_price
              max_quantity client_id w) as [w' [Hrun Hlog]].
  { right; right; exact H. }
  exists w'. split; [| split].
  - exact Hrun.
  - exact Hlog.
  - apply no_submission_setup_calls.
Qed.

(** C9, as the code has it.  An order whose payer is the owner's own key
    fails and nothing is submitted: the calls to the node are the lookup of
    the open-orders accounts and, exactly when it found no account, the rent
    query.  The error is [ValueError("Invalid payer account")] when the
    lookup answered and, if it found no account, the rent query answered with
    a result; otherwise it is the error of the call that failed, or
    [KeyError("result")] when the rent response has no result. *)
Theorem place_order_invalid_payer (self : Market) (payer : PublicKey) (owner : Account)
  (order_type : OrderType) (side : Side) (limit_price max_quantity client_id : Z)
  (w : World) :
  payer = public_key owner ->
  exists w',
    place_order self payer owner order_type side limit_price max_quantity client_id w
    = (Raise
         match setup_error self owner with
         | Some e => e
         | None => ValueError "Invalid payer account"
         end, w')
    /\ net_log w' = (net_log w ++ lookup_call self owner :: setup_calls self owner)%list
    /\ no_submission (setup_calls self owner) = true.
Proof.
  intros H.
  destruct (place_order_stops_exactly self payer owner order_type side limit_price
              max_quantity client_id w) as [w' [Hrun Hlog]].
  { left; exact H. }
  exists w'. split; [| split].
  - rewrite Hrun. unfold checks_error.
    apply pubkey_eqb_eq in H. rewrite H. reflexivity.
  - exact Hlog.
  - apply no_submission_setup_calls.
Qed.

(** A purchase on a market whose quote mint is the wrapped native mint. *)
Lemma place_order_buy_wrapped_quote (self : Market) (payer : PublicKey) (owner : Account)
  (order_type : OrderType) (limit_price max_quantity client_id : Z) (w : World) :
  ms_quote_mint (state self) = WRAPPED_SOL_MINT ->
  payer <> public_key owner ->
  setup_succeeds self owner = true ->
  exists calls w',
    place_order self payer owner order_type Buy limit_price max_quantity client_id w
    = (Raise (NotImplementedError "WRAPPED_SOL_MINT is currently unsupported"), w')
    /\ net_log w' = (net_log w ++ lookup_call self owner :: calls)%list
    /\ no_submission calls = true.
Proof.
  intros Hmint Hpayer Hsetup.
  assert (Hguard : wrapped_sol_guard self Buy = true).
  { rewrite wrapped_sol_guard_buy, Hmint. apply pubkey_eqb_refl. }
  destruct (place_order_stopped self payer owner order_type Buy limit_price max_quantity
              client_id w) as [e [calls [w' [Hrun [Hlog [Hsub He]]]]]].
  { right; left; exact Hguard. }
  exists calls, w'. repeat (split; [| assumption]).
  rewrite Hrun, (He Hsetup). unfold checks_error.
  apply pubkey_eqb_neq in Hpayer. now rewrite Hpayer, Hguard.
Qed.

(** C7, as the code has it.  The eight operations that the class declares
    without implementing fail with [NotImplementedError] and leave the world
    as it was: no call to the node, no key drawn, nothing logged.  A purchase
    on a market whose quote mint is the wrapped native mint fails and submits
    nothing; it calls the node for the lookup of the open-orders accounts
    and, exactly when that found no account, for the rent query.  Its error
    is that of the lookup or of the rent query when one of them failed
    ([KeyError] when the rent response has no result); otherwise the
    invalid-payer error when the payer is the owner; otherwise
    [NotImplementedError]. *)
Theorem unsupported_operations (self : Market) :
  (forall u w, is_stub u = true -> fails_without_effect self u w)
  /\ (forall payer owner order_type limit_price max_quantity client_id w,
        ms_quote_mint (state self) = WRAPPED_SOL_MINT ->
        exists w',
          invoke self
            (PlaceOrderWrapped payer owner order_type limit_price max_quantity client_id) w
          = (Raise
               match setup_error self owner with
               | Some e => e
               | None =>
                   if pubkey_eqb payer (public_key owner)
                   then ValueError "Invalid payer account"
                   else NotImplementedError "WRAPPED_SOL_MINT is currently unsupported"
               end, w')
          /\ net_log w'
             = (net_log w ++ lookup_call self owner :: setup_calls self owner)%list
          /\ no_submission (setup_calls self owner) = true).
Proof.
  split.
  - intros u w Hstub. unfold fails_without_effect.
    destruct u; try discriminate; eexists; reflexivity.
  - intros payer owner order_type limit_price max_quantity client_id w Hmint.
    assert (Hguard : wrapped_sol_guard self Buy = true).
    { rewrite wrapped_sol_guard_buy, Hmint. apply pubkey_eqb_refl. }
    destruct (place_order_stops_exactly self payer owner order_type Buy limit_price
                max_quantity client_id w) as [w' [Hrun Hlog]].
    { right; left; exact Hguard. }
    exists w'. split; [| split].
    + cbn [invoke]. unfold outcome. rewrite Hrun.
      unfold checks_error. rewrite Hguard. reflexivity.
    + exact Hlog.
    + apply no_submission_setup_calls.
Qed.

(** C10, on the code.  A sale on a market whose base mint is the wrapped
    native mint is not stopped: the guard compares the method [base_mint],
    not its value, with the mint, so the order is built and submitted. *)
Theorem place_order_sell_wrapped_base_submits (self : Market) (payer : PublicKey)
  (owner : Account) (order_type : OrderType) (limit_price max_quantity client_id : Z)
  (w : World) (first : OpenOrdersAccount) (others : list OpenOrdersAccount) :
  ms_base_mint (state self) = WRAPPED_SOL_MINT ->
  payer <> public_key owner ->
  (0 <= base_size_number_to_lots (state self) max_quantity)%Z ->
  (0 <= price_number_to_lots (state self) limit_price)%Z ->
  rpc_find_open_orders (_conn self) (ms_public_key (state self)) (public_key owner)
    (ms_program_id (state self))
  = Ok (first :: others) ->
  let run :=
    place_order self payer owner order_type Sell limit_price max_quantity client_id w in
  exists p,
    net_log (snd run)
    = (net_log w
       ++ [lookup_call self owner;
           CallSendTransaction (mkTransaction [NewOrderIx p]) [owner]
             (_skip_preflight self)])%list
    /\ no_side p = Sell.
Proof.
  intros _ Hpayer Hs Hp Hfound run. subst run.
  rewrite place_order_unfold, Hfound. cbn zeta.
  rewrite after_setup_submits by (assumption || apply wrapped_sol_guard_sell).
  match goal with
  | |- context [_send_transaction ?s ?t ?sg ?w0] =>
      destruct (send_transaction_run s t sg w0) as [w' [Hrun [Hlog _]]]
  end.
  rewrite Hrun. cbn [fst snd].
  eexists. rewrite Hlog. cbn [net_log]. rewrite <- app_assoc.
  split; reflexivity.
Qed.

(** C6.  For an order that passes the checks: when the lookup returns
    accounts, the order names the address of the first, the transaction holds
    the order instruction alone, the owner alone signs and no key pair is
    drawn; when the lookup returns none, a key pair is drawn, the transaction
    holds the instruction that creates its account followed by the order
    instruction naming it, and the new account signs after the owner. *)
Theorem place_order_resolves_open_orders (self : Market) (payer : PublicKey)
  (owner : Account) (order_type : OrderType) (side : Side)
  (limit_price max_quantity client_id : Z) (w : World)
  (found : list OpenOrdersAccount) :
  payer <> public_key owner ->
  wrapped_sol_guard self side = false ->
  (0 <= base_size_number_to_lots (state self) max_quantity)%Z ->
  (0 <= price_number_to_lots (state self) limit_price)%Z ->
  rpc_find_open_orders (_conn self) (ms_public_key (state self)) (public_key owner)
    (ms_program_id (state self))
  = Ok found ->
  let run :=
    place_order self payer owner order_type side limit_price max_quantity client_id w in
  match found with
  | first :: _ =>
      exists p,
        net_log (snd run)
        = (net_log w
           ++ [lookup_call self owner;
               CallSendTransaction (mkTransaction [NewOrderIx p]) [owner]
                 (_skip_preflight self)])%list
        /\ no_open_orders p = address first
        /\ keys_drawn (snd run) = keys_drawn w
  | [] =>
      forall balanced_needed,
        rpc_get_minimum_balance (_conn self) OPEN_ORDERS_LAYOUT_sizeof
        = Ok (Some balanced_needed) ->
        let new_open_orders_account := key_source w (keys_drawn w) in
        exists p,
          net_log (snd run)
          = (net_log w
             ++ [lookup_call self owner;
                 CallGetMinimumBalance OPEN_ORDERS_LAYOUT_sizeof;
                 CallSendTransaction
                   (mkTransaction
                      [CreateAccountIx (public_key owner)
                         (public_key new_open_orders_account) balanced_needed
                         (ms_program_id (state self));
                       NewOrderIx p])
                   [owner; new_open_orders_account]
                   (_skip_preflight self)])%list
          /\ no_open_orders p = public_key new_open_orders_account
          /\ keys_drawn (snd run) = S (keys_drawn w)
  end.
Proof.
  intros Hpayer Hguard Hs Hp Hfound run. subst run.
  rewrite place_order_unfold, Hfound. cbn zeta.
  destruct found as [| first others].
  - intros balanced_needed Hrent. rewrite Hrent. cbn zeta.
    rewrite after_setup_submits by assumption.
    match goal with
    | |- context [_send_transaction ?s ?t ?sg ?w0] =>
        destruct (send_transaction_run s t sg w0) as [w' [Hrun [Hlog [Hkeys _]]]]
    end.
    rewrite Hrun. cbn [fst snd].
    eexists. rewrite Hlog, Hkeys. cbn [net_log keys_drawn].
    rewrite <- !app_assoc. repeat split; reflexivity.
  - rewrite after_setup_submits by assumption.
    match goal with
    | |- context [_send_transaction ?s ?t ?sg ?w0] =>
        destruct (send_transaction_run s t sg w0) as [w' [Hrun [Hlog [Hkeys _]]]]
    end.
    rewrite Hrun. cbn [fst snd].
    eexists. rewrite Hlog, Hkeys. cbn [net_log keys_drawn].
    rewrite <- !app_assoc. repeat split; reflexivity.
Qed.

(** ** Further properties of the class *)

(** *** Fills *)

Lemma truediv_abs_le (a b : Z) :
  b <> 0%Z -> (Qabs (Qred (inject_Z a / inject_Z b)) <= inject_Z (Z.abs a))%Q.
Proof.
  intros Hb. rewrite Qred_correct. unfold Qdiv.
  rewrite Qabs_Qmult, Qabs_Qinv.
  change (Qabs (inject_Z a)) with (inject_Z (Z.abs a)).
  change (Qabs (inject_Z b)) with (inject_Z (Z.abs b)).
  apply Qle_shift_div_r.
  - change 0%Q with (inject_Z 0). rewrite <- Zlt_Qlt. lia.
  - rewrite <- inject_Z_mult, <- Zle_Qle. nia.
Qed.

Lemma truediv_lower (a b bound : Z) :
  (1 <= a)%Z -> (1 <= b <= bound)%Z ->
  (/ inject_Z bound <= Qred (inject_Z a / inject_Z b))%Q.
Proof.
  intros Ha Hb. rewrite Qred_correct.
  apply Qle_shift_div_l.
  - change 0%Q with (inject_Z 0). rewrite <- Zlt_Qlt. lia.
  - apply Qle_trans with (inject_Z 1).
    + rewrite Qmult_comm. apply Qle_shift_div_r.
      * change 0%Q with (inject_Z 0). rewrite <- Zlt_Qlt. lia.
      * rewrite <- inject_Z_mult, <- Zle_Qle. lia.
    + rewrite <- Zle_Qle. exact Ha.
Qed.

Lemma binary64_range_of_price : (2 ^ 65 * 10 ^ 255 < 2 ^ 1023)%Z.
Proof. vm_compute. reflexivity. Qed.

Lemma price_before_fees_abs (event : Event) :
  event_in_range event -> (Z.abs (price_before_fees event) < 2 ^ 65)%Z.
Proof.
  unfold event_in_range, u64, price_before_fees. intros [Hr [_ Hf]].
  change (2 ^ 65)%Z with (2 * 2 ^ 64)%Z.
  destruct (bid (event_flags event)), (maker (event_flags event)); lia.
Qed.

(** A fill parsed from quantities and multipliers in range: its price and
    its size are quotients that binary64 holds as finite numbers, the size
    not as zero. *)
Lemma parse_fill_event_bounds (self : Market) (event : Event) :
  event_in_range event ->
  market_in_range self ->
  native_quantity_paid event <> 0%Z ->
  exists f,
    parse_fill_event self event = Ok f
    /\ (Qabs (fo_price f) < inject_Z (2 ^ 1023))%Q
    /\ (/ inject_Z (10 ^ 255) <= fo_size f)%Q
    /\ (fo_size f < inject_Z (2 ^ 64))%Q.
Proof.
  intros Hev [[Hb1 Hb2] [Hq1 Hq2]] Hpaid.
  pose proof (price_before_fees_abs event Hev) as Hbefore.
  destruct Hev as [_ [[Hp1 Hp2] _]]. fold (u64 (native_quantity_paid event)) in *.
  unfold parse_fill_event.
  rewrite py_truediv_nonzero by nia.
  rewrite py_truediv_nonzero by lia.
  eexists. split; [reflexivity |]. cbn [fo_price fo_size].
  split; [| split].
  - eapply Qle_lt_trans; [apply truediv_abs_le; nia |].
    rewrite <- Zlt_Qlt.
    apply Z.le_lt_trans with (2 ^ 65 * 10 ^ 255)%Z; [| exact binary64_range_of_price].
    rewrite Z.abs_mul, (Z.abs_eq (base_spl_token_multiplier (state self))) by lia.
    apply Z.mul_le_mono_nonneg; lia.
  - apply truediv_lower; lia.
  - eapply Qle_lt_trans; [apply Qle_Qabs |].
    eapply Qle_lt_trans; [apply truediv_abs_le; lia |].
    rewrite <- Zlt_Qlt. lia.
Qed.


Lemma parse_fill_event_fields (self : Market) (event : Event) (f : FilledOrder) :
  parse_fill_event self event = Ok f ->
  fo_order_id f = int_from_bytes_little (order_id event)
  /\ fo_side f = (if bid (event_flags event) then Buy else Sell)
  /\ fo_size f
     = Qred (inject_Z (native_quantity_paid event)
             / inject_Z (base_spl_token_multiplier (state self)))
  /\ fo_fee_cost f
     = (native_fee_or_rebate event * (if maker (event_flags event) then 1 else -1))%Z.
Proof.
  unfold parse_fill_event, py_truediv.
  destruct (_ =? 0)%Z; [discriminate |].
  destruct (_ =? 0)%Z; [discriminate |].
  intros H. injection H as <-. cbn. repeat split; reflexivity.
Qed.

(** X2.  In a parsed fill the side is Buy exactly for a bid, the fee cost is
    the fee for a maker and its opposite for a taker, and the price before
    fees is the released quantity plus the fee cost for a purchase, minus the
    fee cost for a sale. *)
Theorem parse_fill_event_fee_cost (self : Market) (event : Event) (f : FilledOrder) :
  parse_fill_event self event = Ok f ->
  (fo_side f = Buy <-> bid (event_flags event) = true)
  /\ fo_fee_cost f
     = (if maker (event_flags event)
        then native_fee_or_rebate event
        else - native_fee_or_rebate event)%Z
  /\ price_before_fees event
     = (if bid (event_flags event)
        then native_quantity_released event + fo_fee_cost f
        else native_quantity_released event - fo_fee_cost f)%Z.
Proof.
  intros H. apply parse_fill_event_fields in H as [_ [Hside [_ Hfee]]].
  rewrite Hside, Hfee. unfold price_before_fees.
  destruct (bid (event_flags event)), (maker (event_flags event));
    (split; [split; congruence | split; lia]).
Qed.

Lemma int_from_bytes_little_range (b : list byte) :
  (0 <= int_from_bytes_little b < 256 ^ Z.of_nat (List.length b))%Z.
Proof.
  induction b as [| x rest IH].
  - cbn. lia.
  - cbn [int_from_bytes_little List.length]. rewrite Nat2Z.inj_succ, Z.pow_succ_r by lia.
    assert (Hx : (0 <= Z.of_N (Byte.to_N x) < 256)%Z).
    { split; [lia |]. pose proof (Byte.to_N_bounded x) as Hb. lia. }
    lia.
Qed.

Lemma int_from_bytes_little_padding (b : list byte) (n : nat) :
  int_from_bytes_little (b ++ repeat x00 n) = int_from_bytes_little b.
Proof.
  induction b as [| x rest IH].
  - cbn [app]. induction n as [| n IHn]; [reflexivity |].
    cbn [repeat int_from_bytes_little]. rewrite IHn. reflexivity.
  - cbn [app int_from_bytes_little]. rewrite IH. reflexivity.
Qed.

(** X3.  The order id of a parsed fill is the little-endian value of the
    event's id bytes: it is not negative and lies below 256 to the number of
    bytes, and bytes of zero appended at the end do not change it. *)
Theorem parse_fill_event_order_id (self : Market) (event : Event) (f : FilledOrder) :
  parse_fill_event self event = Ok f ->
  (0 <= fo_order_id f < 256 ^ Z.of_nat (List.length (order_id event)))%Z
  /\ forall n, int_from_bytes_little (order_id event ++ repeat x00 n) = fo_order_id f.
Proof.
  intros H. apply parse_fill_event_fields in H as [Hid _]. rewrite Hid.
  split; [apply int_from_bytes_little_range |].
  intros n. apply int_from_bytes_little_padding.
Qed.

(** *** Loading *)

Lemma mapM_lift_run {A B} (f : A -> Result B) (l : list A) (w : World) :
  exists r,
    mapM (fun x => lift (f x)) l w = (r, w)
    /\ match r with
       | Ok ys => Forall2 (fun x y => f x = Ok y) l ys
       | Raise e => exists x, In x l /\ f x = Raise e
       end.
Proof.
  induction l as [| x xs [r [IHrun IHr]]].
  - eexists. split; [reflexivity | constructor].
  - cbn [mapM]. unfold bind at 1. unfold lift at 1.
    destruct (f x) as [y | e] eqn:Hx.
    + unfold bind at 1. rewrite IHrun. destruct r as [ys | e].
      * eexists. split; [reflexivity |]. constructor; assumption.
      * eexists. split; [reflexivity |]. destruct IHr as [x' [Hin Hx']].
        exists x'. split; [right; exact Hin | exact Hx'].
    + eexists. split; [reflexivity |]. exists x. split; [left; reflexivity | exact Hx].
Qed.

Lemma load_fills_run (self : Market) (limit : Z) (w : World) :
  let w1 :=
    mkWorld (net_log w ++ [CallGetAccountData (ms_event_queue (state self))])
      (key_source w) (keys_drawn w) (warnings w) in
  load_fills self limit w
  = match rpc_account_data (_conn self) (ms_event_queue (state self)) with
    | Raise e => (Raise e, w1)
    | Ok bytes_data =>
        match decode_event_queue bytes_data limit with
        | Raise e => (Raise e, w1)
        | Ok events =>
            (fst (mapM (fun event => lift (parse_fill_event self event))
                    (filter is_fill events) w1), w1)
        end
    end.
Proof.
  cbn zeta. unfold load_fills, load_bytes_data.
  unfold bind at 1. unfold net_call at 1.
  destruct (rpc_account_data _ _) as [bytes_data | e]; [| reflexivity].
  unfold bind at 1. unfold lift at 1.
  destruct (decode_event_queue bytes_data limit) as [events | e]; [| reflexivity].
  match goal with
  | |- ?m ?w1 = _ =>
      destruct (mapM_lift_run (parse_fill_event self) (filter is_fill events) w1)
        as [r [Hm _]]
  end.
  rewrite Hm. reflexivity.
Qed.


(** X5.  On such a market and with such a decoder, [load_fills] fails
    exactly when reading the event queue account fails or decoding it fails,
    and then with that error: parsing the events it keeps does not fail. *)
Theorem load_fills_fails_iff (self : Market) (limit : Z) (w : World) (e : PyExn) :
  market_in_range self ->
  (forall bytes_data events,
      decode_event_queue bytes_data limit = Ok events -> Forall event_in_range events) ->
  fst (load_fills self limit w) = Raise e
  <-> (rpc_account_data (_conn self) (ms_event_queue (state self)) = Raise e
       \/ exists bytes_data,
           rpc_account_data (_conn self) (ms_event_queue (state self)) = Ok bytes_data
           /\ decode_event_queue bytes_data limit = Raise e).
Proof.
  intros Hmk Hdecoder. rewrite load_fills_run. cbn zeta.
  destruct (rpc_account_data _ _) as [bytes_data | e0].
  - destruct (decode_event_queue bytes_data limit) as [events | e0] eqn:Hdec.
    + cbn [fst]. split.
      * intros Hrun.
        match type of Hrun with
        | fst (?m ?w1) = _ =>
            destruct (mapM_lift_run (parse_fill_event self) (filter is_fill events) w1)
              as [r [Hm Hall]]
        end.
        rewrite Hm in Hrun. cbn [fst] in Hrun. subst r.
        destruct Hall as [event [Hin Hparse]].
        apply filter_In in Hin as [Hin Hfill]. apply is_fill_spec in Hfill as [_ Hpaid].
        pose proof (Hdecoder bytes_data events Hdec) as Hrange.
        rewrite Forall_forall in Hrange.
        destruct (parse_fill_event_bounds self event (Hrange event Hin) Hmk)
          as [f [Hf _]]; [lia |].
        congruence.
      * intros [H | [bytes' [Hread H]]]; [discriminate |].
        injection Hread as <-. congruence.
    + cbn [fst]. split.
      * intros H. right. exists bytes_data. split; [reflexivity |]. congruence.
      * intros [H | [bytes' [Hread H]]]; [discriminate |].
        injection Hread as <-. congruence.
  - cbn [fst]. split.
    + intros H. left. congruence.
    + intros [H | [bytes' [Hread _]]]; [congruence | discriminate].
Qed.

(** X6.  Each loader reads one account and does nothing else to the world,
    whatever the node answers and whatever decoding makes of it:
    [load_bids] reads the bids account, [load_asks] the asks account,
    [load_request_queue] the request queue, [load_event_queue] and
    [load_fills] the event queue. *)
Theorem loaders_only_read (self : Market) (limit : Z) (w : World) :
  only_read (ms_bids (state self)) w (snd (load_bids self w))
  /\ only_read (ms_asks (state self)) w (snd (load_asks self w))
  /\ only_read (ms_request_queue (state self)) w (snd (load_request_queue self w))
  /\ only_read (ms_event_queue (state self)) w (snd (load_event_queue self w))
  /\ only_read (ms_event_queue (state self)) w (snd (load_fills self limit w)).
Proof.
  unfold only_read.
  repeat split;
    try (rewrite load_fills_run; cbn zeta;
         destruct (rpc_account_data _ _) as [bytes_data | e];
         [destruct (decode_event_queue bytes_data limit) |]; reflexivity);
    unfold load_bids, load_asks, load_request_queue, load_event_queue, load_bytes_data,
      bind, net_call, lift;
    destruct (rpc_account_data _ _); reflexivity.
Qed.

(** *** Building and submitting *)

(** X7.  [make_place_order_instruction] fails exactly when the size or the
    price converts to lots below zero.  The size is tested first: its error
    is the one raised also when the price is below zero lots as well, and the
    message carries the quantity as given, not the lots. *)
Theorem make_place_order_instruction_fails_iff (self : Market) (payer : PublicKey)
  (owner : Account) (order_type : OrderType) (side : Side)
  (limit_price max_quantity client_id : Z) (open_order_account : PublicKey) :
  let built :=
    make_place_order_instruction self payer owner order_type side limit_price max_quantity
      client_id open_order_account in
  ((exists e, built = Raise e)
   <-> (base_size_number_to_lots (state self) max_quantity < 0
        \/ price_number_to_lots (state self) limit_price < 0)%Z)
  /\ ((base_size_number_to_lots (state self) max_quantity < 0)%Z ->
      built = Raise (Exception_ (format_d "Size lot " max_quantity " is too small")))
  /\ ((0 <= base_size_number_to_lots (state self) max_quantity)%Z ->
      (price_number_to_lots (state self) limit_price < 0)%Z ->
      built = Raise (Exception_ (format_d "Price lot " limit_price " is too small"))).
Proof.
  cbn zeta. unfold make_place_order_instruction.
  destruct (Z.ltb_spec (base_size_number_to_lots (state self) max_quantity) 0) as [Hs | Hs];
    destruct (Z.ltb_spec (price_number_to_lots (state self) limit_price) 0) as [Hp | Hp].
  - split; [split; [intros _; left; exact Hs | intros _; eexists; reflexivity] |].
    split; [reflexivity | intros; lia].
  - split; [split; [intros _; left; exact Hs | intros _; eexists; reflexivity] |].
    split; [reflexivity | intros; lia].
  - split; [split; [intros _; right; exact Hp | intros _; eexists; reflexivity] |].
    split; [intros; lia | reflexivity].
  - split; [split; [intros [e He]; discriminate He | intros [H | H]; lia] |].
    split; intros; lia.
Qed.

Lemma send_transaction_world (self : Market) (transaction : Transaction)
  (signers : list Account) (w : World) :
  let answer :=
    rpc_send_transaction (_conn self) transaction signers (_skip_preflight self) in
  _send_transaction self transaction signers w
  = (send_outcome answer,
     mkWorld
       (net_log w ++ [CallSendTransaction transaction signers (_skip_preflight self)])
       (key_source w) (keys_drawn w)
       (match answer with
        | Ok _ =>
            if (_confirmations self >? 0)%Z
            then (warnings w ++ ["Cannot confirm transaction yet."])%list
            else warnings w
        | Raise _ => warnings w
        end)).
Proof.
  cbn zeta. unfold _send_transaction, send_outcome, bind, net_call, log_warning, ret, raise.
  destruct (rpc_send_transaction _ _ _ _) as [signature | e]; [| reflexivity].
  destruct (_confirmations self >? 0)%Z; destruct (truthy signature); reflexivity.
Qed.

Lemma send_outcome_ok_iff (answer : Result (option string)) (s : string) :
  send_outcome answer = Ok s <-> answer = Ok (Some s) /\ s <> "".
Proof.
  unfold send_outcome. destruct answer as [[s' |] | e]; cbn.
  - destruct (String.eqb_spec s' ""); cbn; split.
    + discriminate.
    + intros [H Hne]. injection H as ->. contradiction.
    + intros H. injection H as ->. split; [reflexivity | assumption].
    + intros [H _]. injection H as ->. reflexivity.
  - split; [discriminate | intros [H _]; discriminate H].
  - split; [discriminate | intros [H _]; discriminate H].
Qed.

(** X8.  [_send_transaction] logs the warning "Cannot confirm transaction
    yet." exactly when the market was opened with confirmations above zero
    and the submitter answered, whether or not the answer holds a signature;
    it logs nothing when the submitter raised. *)
Theorem send_transaction_warning (self : Market) (transaction : Transaction)
  (signers : list Account) (w : World) :
  warnings (snd (_send_transaction self transaction signers w))
  = match
      rpc_send_transaction (_conn self) transaction signers (_skip_preflight self)
    with
    | Ok _ =>
        if (0 <? _confirmations self)%Z
        then (warnings w ++ ["Cannot confirm transaction yet."])%list
        else warnings w
    | Raise _ => warnings w
    end.
Proof.
  rewrite send_transaction_world. cbn [snd warnings]. now rewrite Z.gtb_ltb.
Qed.

(** X9.  [_send_transaction] returns a string exactly when the response of
    the submitter holds that string as its result and the string is not
    empty: an empty signature is refused like a missing one. *)
Theorem send_transaction_returns_iff (self : Market) (transaction : Transaction)
  (signers : list Account) (w : World) (s : string) :
  fst (_send_transaction self transaction signers w) = Ok s
  <-> rpc_send_transaction (_conn self) transaction signers (_skip_preflight self)
      = Ok (Some s)
      /\ s <> "".
Proof.
  rewrite send_transaction_world. cbn [fst]. apply send_outcome_ok_iff.
Qed.

(** X10.  [cancel_order] makes one call to the node, the submission of a
    transaction whose only instruction cancels the order by its id, side,
    open-orders address and slot on behalf of the owner's key; the owner
    alone signs, and the result is what [_send_transaction] makes of the
    answer. *)
Theorem cancel_order_submission (self : Market) (owner : Account) (order : Order)
  (w : World) :
  let txn :=
    mkTransaction
      [CancelOrderIx
         (mkCancelOrderParams (ms_public_key (state self)) (public_key owner)
            (ord_open_order_address order) (ms_request_queue (state self))
            (ord_side order) (ord_order_id order) (ord_open_order_slot order)
            (ms_program_id (state self)))] in
  let run := cancel_order self owner order w in
  net_log (snd run)
  = (net_log w ++ [CallSendTransaction txn [owner] (_skip_preflight self)])%list
  /\ keys_drawn (snd run) = keys_drawn w
  /\ forall s,
      fst run = Ok s
      <-> rpc_send_transaction (_conn self) txn [owner] (_skip_preflight self)
          = Ok (Some s)
          /\ s <> "".
Proof.
  cbn zeta. unfold cancel_order. cbn zeta. rewrite send_transaction_world.
  cbn [fst snd net_log keys_drawn].
  split; [reflexivity |]. split; [reflexivity |].
  intros s. apply send_outcome_ok_iff.
Qed.

(** X11.  [match_orders] makes one call to the node, the submission of a
    transaction whose only instruction asks to match up to [limit] requests
    on the market's queues, books and vaults; the fee payer alone signs, and
    no limit is refused. *)
Theorem match_orders_submission (self : Market) (fee_payer : Account) (limit : Z)
  (w : World) :
  let txn :=
    mkTransaction
      [MatchOrdersIx
         (mkMatchOrdersParams (ms_public_key (state self)) (ms_request_queue (state self))
            (ms_event_queue (state self)) (ms_bids (state self)) (ms_asks (state self))
            (ms_base_vault (state self)) (ms_quote_vault (state self)) limit
            (ms_program_id (state self)))] in
  let run := match_orders self fee_payer limit w in
  net_log (snd run)
  = (net_log w ++ [CallSendTransaction txn [fee_payer] (_skip_preflight self)])%list
  /\ keys_drawn (snd run) = keys_drawn w
  /\ forall s,
      fst run = Ok s
      <-> rpc_send_transaction (_conn self) txn [fee_payer] (_skip_preflight self)
          = Ok (Some s)
          /\ s <> "".
Proof.
  cbn zeta. unfold match_orders. cbn zeta. rewrite send_transaction_world.
  cbn [fst snd net_log keys_drawn].
  split; [reflexivity |]. split; [reflexivity |].
  intros s. apply send_outcome_ok_iff.
Qed.

(** *** Placing an order, continued *)

Lemma after_setup_run (self : Market) (payer : PublicKey) (owner : Account)
  (order_type : OrderType) (side : Side) (limit_price max_quantity client_id : Z)
  (transaction : Transaction) (signers : list Account) (open_orders_address : PublicKey)
  (w : World) :
  exists r w',
    after_setup self payer owner order_type side limit_price max_quantity client_id
      transaction signers open_orders_address w
    = (r, w')
    /\ key_source w' = key_source w
    /\ keys_drawn w' = keys_drawn w
    /\ (net_log w' = net_log w
        \/ exists txn sgn,
            net_log w'
            = (net_log w ++ [CallSendTransaction txn sgn (_skip_preflight self)])%list).
Proof.
  unfold after_setup.
  destruct (pubkey_eqb payer (public_key owner)).
  { eexists. eexists. split; [reflexivity |]. auto. }
  destruct (wrapped_sol_guard self side).
  { eexists. eexists. split; [reflexivity |]. auto. }
  unfold bind at 1. unfold lift at 1.
  destruct (make_place_order_instruction _ _ _ _ _ _ _ _ _) as [instruction | e].
  - rewrite send_transaction_world. eexists. eexists. split; [reflexivity |].
    cbn [key_source keys_drawn net_log]. split; [reflexivity |]. split; [reflexivity |].
    right. eexists. eexists. reflexivity.
  - eexists. eexists. split; [reflexivity |]. auto.
Qed.

(** X12.  An order that passes the checks, on a node that answered the
    lookups and answers every submission with the signature [s], a string
    that is not empty, returns [s]. *)
Theorem place_order_returns_signature (self : Market) (payer : PublicKey)
  (owner : Account) (order_type : OrderType) (side : Side)
  (limit_price max_quantity client_id : Z) (w : World) (s : string) :
  payer <> public_key owner ->
  wrapped_sol_guard self side = false ->
  (0 <= base_size_number_to_lots (state self) max_quantity)%Z ->
  (0 <= price_number_to_lots (state self) limit_price)%Z ->
  setup_succeeds self owner = true ->
  (forall txn sgn,
      rpc_send_transaction (_conn self) txn sgn (_skip_preflight self) = Ok (Some s)) ->
  s <> "" ->
  fst (place_order self payer owner order_type side limit_price max_quantity client_id w)
  = Ok s.
Proof.
  intros Hpayer Hguard Hs Hp Hsetup Hsend Hne.
  rewrite place_order_unfold. cbn zeta. unfold setup_succeeds in Hsetup.
  destruct (rpc_find_open_orders _ _ _ _) as [[| first others] | e]; [| | discriminate].
  - destruct (rpc_get_minimum_balance _ _) as [[balanced_needed |] | e];
      [| discriminate | discriminate].
    rewrite after_setup_submits by assumption.
    rewrite send_transaction_world. cbn [fst].
    apply send_outcome_ok_iff. split; [apply Hsend | exact Hne].
  - rewrite after_setup_submits by assumption.
    rewrite send_transaction_world. cbn [fst].
    apply send_outcome_ok_iff. split; [apply Hsend | exact Hne].
Qed.

(** X13.  When the lookup of the open-orders accounts fails, [place_order]
    fails with that error: the lookup is its only call, no key pair is drawn
    and nothing is logged. *)
Theorem place_order_lookup_failure (self : Market) (payer : PublicKey) (owner : Account)
  (order_type : OrderType) (side : Side) (limit_price max_quantity client_id : Z)
  (w : World) (e : PyExn) :
  rpc_find_open_orders (_conn self) (ms_public_key (state self)) (public_key owner)
    (ms_program_id (state self))
  = Raise e ->
  place_order self payer owner order_type side limit_price max_quantity client_id w
  = (Raise e,
     mkWorld (net_log w ++ [lookup_call self owner]) (key_source w) (keys_drawn w)
       (warnings w)).
Proof.
  intros Hfound. rewrite place_order_unfold, Hfound. reflexivity.
Qed.

(** X14.  When the owner has no open-orders account and the rent query
    fails, or its response has no ["result"], [place_order] fails with the
    error of the query, or with [KeyError("result")]: a key pair has been
    drawn by then, the two calls are in the log, and nothing is submitted,
    whatever the payer, the side and the lots. *)
Theorem place_order_rent_failure (self : Market) (payer : PublicKey) (owner : Account)
  (order_type : OrderType) (side : Side) (limit_price max_quantity client_id : Z)
  (w : World) (e : PyExn) :
  rpc_find_open_orders (_conn self) (ms_public_key (state self)) (public_key owner)
    (ms_program_id (state self))
  = Ok [] ->
  rpc_get_minimum_balance (_conn self) OPEN_ORDERS_LAYOUT_sizeof = Raise e
  \/ (rpc_get_minimum_balance (_conn self) OPEN_ORDERS_LAYOUT_sizeof = Ok None
      /\ e = KeyError "result") ->
  place_order self payer owner order_type side limit_price max_quantity client_id w
  = (Raise e,
     mkWorld
       (net_log w
        ++ [lookup_call self owner; CallGetMinimumBalance OPEN_ORDERS_LAYOUT_sizeof])
       (key_source w) (S (keys_drawn w)) (warnings w)).
Proof.
  intros Hfound Hrent. rewrite place_order_unfold, Hfound. cbn zeta.
  rewrite <- app_assoc. cbn [app].
  destruct Hrent as [Hrent | [Hrent ->]]; rewrite Hrent; reflexivity.
Qed.

(** X15.  Whatever the arguments and the answers of the node, [place_order]
    calls the node at most three times: first the lookup of the open-orders
    accounts; then, exactly when the lookup found none, the rent query, a key
    pair being drawn; last, at most one submission. *)
Theorem place_order_calls (self : Market) (payer : PublicKey) (owner : Account)
  (order_type : OrderType) (side : Side) (limit_price max_quantity client_id : Z)
  (w : World) :
  let run :=
    place_order self payer owner order_type side limit_price max_quantity client_id w in
  let rent_query := CallGetMinimumBalance OPEN_ORDERS_LAYOUT_sizeof in
  exists calls,
    net_log (snd run) = (net_log w ++ lookup_call self owner :: calls)%list
    /\ match
         rpc_find_open_orders (_conn self) (ms_public_key (state self))
           (public_key owner) (ms_program_id (state self))
       with
       | Ok [] =>
           keys_drawn (snd run) = S (keys_drawn w)
           /\ (calls = [rent_query]
               \/ exists txn sgn,
                   calls
                   = [rent_query; CallSendTransaction txn sgn (_skip_preflight self)])
       | _ =>
           keys_drawn (snd run) = keys_drawn w
           /\ (calls = []
               \/ exists txn sgn,
                   calls = [CallSendTransaction txn sgn (_skip_preflight self)])
       end.
Proof.
  cbn zeta. rewrite place_order_unfold. cbn zeta.
  destruct (rpc_find_open_orders _ _ _ _) as [[| first others] | e].
  - destruct (rpc_get_minimum_balance _ _) as [[balanced_needed |] | e].
    + match goal with
      | |- context [after_setup ?a ?b ?c ?d ?e ?f ?g ?h ?i ?j ?k ?w0] =>
          destruct (after_setup_run a b c d e f g h i j k w0)
            as [r [w' [Hrun [_ [Hkeys Hlog]]]]]
      end.
      rewrite Hrun. cbn [snd]. cbn [net_log keys_drawn] in Hkeys, Hlog.
      destruct Hlog as [Hlog | [txn [sgn Hlog]]]; rewrite Hlog, <- !app_assoc;
        eexists; (split; [reflexivity |]); (split; [exact Hkeys |]).
      * left. reflexivity.
      * right. eexists. eexists. reflexivity.
    + eexists. cbn [snd net_log keys_drawn]. rewrite <- app_assoc.
      split; [reflexivity |]. split; [reflexivity | left; reflexivity].
    + eexists. cbn [snd net_log keys_drawn]. rewrite <- app_assoc.
      split; [reflexivity |]. split; [reflexivity | left; reflexivity].
  - match goal with
    | |- context [after_setup ?a ?b ?c ?d ?e ?f ?g ?h ?i ?j ?k ?w0] =>
        destruct (after_setup_run a b c d e f g h i j k w0)
          as [r [w' [Hrun [_ [Hkeys Hlog]]]]]
    end.
    rewrite Hrun. cbn [snd]. cbn [net_log keys_drawn] in Hkeys, Hlog.
    destruct Hlog as [Hlog | [txn [sgn Hlog]]]; rewrite Hlog, <- ?app_assoc;
      eexists; (split; [reflexivity |]); (split; [exact Hkeys |]).
    + left. reflexivity.
    + right. eexists. eexists. reflexivity.
  - exists []. cbn [snd net_log keys_drawn].
    split; [reflexivity |]. split; [reflexivity | left; reflexivity].
Qed.

End MarketClass.

(** ** The properties on the fixtures *)

(** The float of [1010 / 500] is the float that the literal [2.02] denotes,
    [0x1.028f5c28f5c29p+1]. *)
Example binary64_fill_price :
  binary64_truediv 1010 500 = binary64_truediv 202 100
  /\ binary64_truediv 1010 500 = S754_finite false 4548635623644201 (-51).
Proof. split; vm_compute; reflexivity. Qed.

(** A size of 50 with a base lot of 100 is zero lots, and the instruction is
    built. *)
Lemma make_place_order_instruction_zero_lots_witness :
  base_size_number_to_lots (fx_state (fx_key x09) (fx_key x0a)) 50 = 0%Z
  /\ exists p,
      make_place_order_instruction (fx_market (fx_key x09) (fx_key x0a) [fx_open_orders])
        fx_payer fx_owner Limit Buy 1 50 0 (fx_key x41)
      = Ok (NewOrderIx p)
      /\ no_limit_price p = 1%Z
      /\ no_max_quantity p = 50%Z.
Proof.
  split; [reflexivity |].
  apply (make_place_order_instruction_zero_lots
           (fx_market (fx_key x09) (fx_key x0a) [fx_open_orders])
           fx_payer fx_owner Limit Buy 1 50 0 (fx_key x41)).
  - right. vm_compute. reflexivity.
  - vm_compute. discriminate.
  - vm_compute. discriminate.
Defined.

Lemma parse_fill_event_bid_maker_witness :
  price_before_fees (fx_event true true true 500) = 1010%Z
  /\ exists f,
      parse_fill_event (fx_market (fx_key x09) (fx_key x0a) []) (fx_event true true true 500)
      = Ok f
      /\ fo_side f = Buy
      /\ fo_price f == 1010 # 500
      /\ fo_price f == 2.02
      /\ fo_size f == 500 # 1
      /\ fo_fee_cost f = 10%Z.
Proof.
  apply (parse_fill_event_bid_maker (fx_market (fx_key x09) (fx_key x0a) [])
           (fx_event true true true 500)); reflexivity.
Defined.

(** A sale by a taker, 1000 released and a fee of 10: the price before fees
    is 1010, not 990. *)
Lemma taker_fee_off_sale_on_purchase_counterexample :
  ~ taker_fee_off_sale_on_purchase (fx_event true false false 500).
Proof.
  intros H. destruct (H eq_refl) as [Hsale _].
  specialize (Hsale eq_refl). vm_compute in Hsale. discriminate Hsale.
Qed.

Lemma price_before_fees_taker_witness :
  price_before_fees (fx_event true false false 500) = 1010%Z
  /\ price_before_fees (fx_event true true false 500) = 990%Z.
Proof.
  split.
  - apply (price_before_fees_taker (fx_event true false false 500)). reflexivity.
  - apply (price_before_fees_taker (fx_event true true false 500)). reflexivity.
Defined.

Lemma load_fills_filters_and_parses_witness :
  exists fills,
    fst (load_fills fx_decode (fx_market (fx_key x09) (fx_key x0a) []) 100 fx_world)
    = Ok fills
    /\ Forall2
         (fun event f =>
            parse_fill_event (fx_market (fx_key x09) (fx_key x0a) []) event = Ok f)
         (filter (fun event =>
                    fill (event_flags event) && (0 <? native_quantity_paid event)%Z)
            fx_events)
         fills.
Proof.
  apply (load_fills_filters_and_parses fx_decode
           (fx_market (fx_key x09) (fx_key x0a) []) 100 fx_world [] fx_events).
  - vm_compute. discriminate.
  - vm_compute. discriminate.
  - reflexivity.
  - reflexivity.
Defined.

(** A size of -100 is -1 lot: the error is raised, and the log holds the
    lookup of the open-orders accounts. *)
Lemma lot_error_before_network_counterexample :
  ~ lot_error_before_network fx_wsol fx_layout_size
      (fx_market (fx_key x09) (fx_key x0a) [fx_open_orders])
      fx_payer fx_owner Limit Buy 1 (-100) 0 fx_world.
Proof.
  intros H. destruct H as [e [w' [Hrun Hlog]]].
  - right. vm_compute. reflexivity.
  - vm_compute in Hrun. inversion Hrun; subst. discriminate Hlog.
Qed.

Lemma place_order_lot_error_after_lookup_witness :
  (exists w',
      place_order fx_wsol fx_layout_size
        (fx_market (fx_key x09) (fx_key x0a) [fx_open_orders])
        fx_payer fx_owner Limit Buy 1 (-100) 0 fx_world
      = (Raise (Exception_ "Size lot -100 is too small"), w')
      /\ net_log w' = [CallFindOpenOrders (fx_key x01) (fx_key x21) (fx_key x02)]
      /\ no_submission [] = true)
  /\ (exists w',
         place_order fx_wsol fx_layout_size
           (fx_market (fx_key x09) (fx_key x0a) [])
           fx_payer fx_owner Limit Buy 1 (-100) 0 fx_world
         = (Raise (Exception_ "Size lot -100 is too small"), w')
         /\ net_log w'
            = [CallFindOpenOrders (fx_key x01) (fx_key x21) (fx_key x02);
               CallGetMinimumBalance fx_layout_size]
         /\ no_submission [CallGetMinimumBalance fx_layout_size] = true).
Proof.
  split.
  - apply (place_order_lot_error_after_lookup fx_wsol fx_layout_size
             (fx_market (fx_key x09) (fx_key x0a) [fx_open_orders])
             fx_payer fx_owner Limit Buy 1 (-100) 0 fx_world).
    left. vm_compute. reflexivity.
  - apply (place_order_lot_error_after_lookup fx_wsol fx_layout_size
             (fx_market (fx_key x09) (fx_key x0a) [])
             fx_payer fx_owner Limit Buy 1 (-100) 0 fx_world).
    left. vm_compute. reflexivity.
Defined.

Lemma place_order_resolves_open_orders_witness :
  (exists p,
      net_log
        (snd (place_order fx_wsol fx_layout_size
                (fx_market (fx_key x09) (fx_key x0a) [fx_open_orders])
                fx_payer fx_owner Limit Buy 1 100 0 fx_world))
      = [CallFindOpenOrders (fx_key x01) (fx_key x21) (fx_key x02);
         CallSendTransaction (mkTransaction [NewOrderIx p]) [fx_owner] false]
      /\ no_open_orders p = fx_key x41
      /\ keys_drawn
           (snd (place_order fx_wsol fx_layout_size
                   (fx_market (fx_key x09) (fx_key x0a) [fx_open_orders])
                   fx_payer fx_owner Limit Buy 1 100 0 fx_world))
         = 0%nat)
  /\ (exists p,
         net_log
           (snd (place_order fx_wsol fx_layout_size
                   (fx_market (fx_key x09) (fx_key x0a) [])
                   fx_payer fx_owner Limit Buy 1 100 0 fx_world))
         = [CallFindOpenOrders (fx_key x01) (fx_key x21) (fx_key x02);
            CallGetMinimumBalance 3228;
            CallSendTransaction
              (mkTransaction
                 [CreateAccountIx (fx_key x21) (fx_key x52) 23357760 (fx_key x02);
                  NewOrderIx p])
              [fx_owner; fx_new_account] false]
         /\ no_open_orders p = fx_key x52
         /\ keys_drawn
              (snd (place_order fx_wsol fx_layout_size
                      (fx_market (fx_key x09) (fx_key x0a) [])
                      fx_payer fx_owner Limit Buy 1 100 0 fx_world))
            = 1%nat).
Proof.
  split.
  - apply (place_order_resolves_open_orders fx_wsol fx_layout_size
             (fx_market (fx_key x09) (fx_key x0a) [fx_open_orders])
             fx_payer fx_owner Limit Buy 1 100 0 fx_world [fx_open_orders]).
    + vm_compute. discriminate.
    + reflexivity.
    + vm_compute. discriminate.
    + vm_compute. discriminate.
    + reflexivity.
  - apply (place_order_resolves_open_orders fx_wsol fx_layout_size
             (fx_market (fx_key x09) (fx_key x0a) [])
             fx_payer fx_owner Limit Buy 1 100 0 fx_world []).
    + vm_compute. discriminate.
    + reflexivity.
    + vm_compute. discriminate.
    + vm_compute. discriminate.
    + reflexivity.
    + reflexivity.
Defined.

(** A purchase on a market quoted in the wrapped native mint: the error is
    [NotImplementedError], and the lookup of the open-orders accounts is in
    the log. *)
Lemma fails_without_effect_counterexample :
  ~ fails_without_effect fx_wsol fx_layout_size
      (fx_market (fx_key x09) fx_wsol [fx_open_orders])
      (PlaceOrderWrapped fx_payer fx_owner Limit 1 100 0) fx_world.
Proof.
  intros [msg H]. vm_compute in H. discriminate H.
Qed.

Lemma unsupported_operations_witness :
  fails_without_effect fx_wsol fx_layout_size
    (fx_market (fx_key x09) fx_wsol [fx_open_orders])
    (SettleFunds fx_owner fx_open_orders fx_payer fx_payer) fx_world
  /\ (exists w',
         invoke fx_wsol fx_layout_size (fx_market (fx_key x09) fx_wsol [])
           (PlaceOrderWrapped fx_payer fx_owner Limit 1 100 0) fx_world
         = (Raise (NotImplementedError "WRAPPED_SOL_MINT is currently unsupported"), w')
         /\ net_log w'
            = [CallFindOpenOrders (fx_key x01) (fx_key x21) (fx_key x02);
               CallGetMinimumBalance fx_layout_size]
         /\ no_submission [CallGetMinimumBalance fx_layout_size] = true)
  /\ (exists w',
         invoke fx_wsol fx_layout_size (fx_market (fx_key x09) fx_wsol [fx_open_orders])
           (PlaceOrderWrapped (public_key fx_owner) fx_owner Limit 1 100 0) fx_world
         = (Raise (ValueError "Invalid payer account"), w')
         /\ net_log w' = [CallFindOpenOrders (fx_key x01) (fx_key x21) (fx_key x02)]
         /\ no_submission [] = true).
Proof.
  split; [| split].
  - destruct (unsupported_operations fx_wsol fx_layout_size
                (fx_market (fx_key x09) fx_wsol [fx_open_orders])) as [Hstub _].
    apply Hstub. reflexivity.
  - destruct (unsupported_operations fx_wsol fx_layout_size
                (fx_market (fx_key x09) fx_wsol [])) as [_ Hwrapped].
    apply (Hwrapped fx_payer fx_owner Limit 1%Z 100%Z 0%Z fx_world). reflexivity.
  - destruct (unsupported_operations fx_wsol fx_layout_size
                (fx_market (fx_key x09) fx_wsol [fx_open_orders])) as [_ Hwrapped].
    apply (Hwrapped (public_key fx_owner) fx_owner Limit 1%Z 100%Z 0%Z fx_world).
    reflexivity.
Defined.

Lemma send_transaction_once_witness :
  net_log
    (snd (_send_transaction (fx_market (fx_key x09) (fx_key x0a) [])
            Transaction_new [fx_owner] fx_world))
  = [CallSendTransaction Transaction_new [fx_owner] false]
  /\ fst (_send_transaction (fx_market (fx_key x09) (fx_key x0a) [])
            Transaction_new [fx_owner] fx_world)
     = Ok fx_signature.
Proof.
  destruct (send_transaction_once (fx_market (fx_key x09) (fx_key x0a) [])
              Transaction_new [fx_owner] fx_world) as [Hlog [_ [Hsigned _]]].
  split.
  - exact Hlog.
  - apply (Hsigned fx_signature).
    + reflexivity.
    + vm_compute. discriminate.
Defined.

(** The payer is the owner and the node does not answer the lookup: the
    error is that of the node. *)
Lemma invalid_payer_is_reported_counterexample :
  ~ invalid_payer_is_reported fx_wsol fx_layout_size
      (fx_market_with 0 (Raise fx_node_down) (Ok (Some 1%Z)) (Ok (Some fx_signature)))
      (public_key fx_owner) fx_owner Limit Buy 1 100 0 fx_world.
Proof.
  intros H. destruct (H eq_refl) as [w' [Hrun _]].
  vm_compute in Hrun. discriminate Hrun.
Qed.

Lemma place_order_invalid_payer_witness :
  (exists w',
      place_order fx_wsol fx_layout_size
        (fx_market (fx_key x09) (fx_key x0a) [fx_open_orders])
        (public_key fx_owner) fx_owner Limit Buy 1 100 0 fx_world
      = (Raise (ValueError "Invalid payer account"), w')
      /\ net_log w' = [CallFindOpenOrders (fx_key x01) (fx_key x21) (fx_key x02)]
      /\ no_submission [] = true)
  /\ (exists w',
         place_order fx_wsol fx_layout_size
           (fx_market_with 0 (Ok []) (Ok None) (Ok (Some fx_signature)))
           (public_key fx_owner) fx_owner Limit Buy 1 100 0 fx_world
         = (Raise (KeyError "result"), w')
         /\ net_log w'
            = [CallFindOpenOrders (fx_key x01) (fx_key x21) (fx_key x02);
               CallGetMinimumBalance fx_layout_size]
         /\ no_submission [CallGetMinimumBalance fx_layout_size] = true).
Proof.
  split.
  - apply (place_order_invalid_payer fx_wsol fx_layout_size
             (fx_market (fx_key x09) (fx_key x0a) [fx_open_orders])
             (public_key fx_owner) fx_owner Limit Buy 1 100 0 fx_world).
    reflexivity.
  - apply (place_order_invalid_payer fx_wsol fx_layout_size
             (fx_market_with 0 (Ok []) (Ok None) (Ok (Some fx_signature)))
             (public_key fx_owner) fx_owner Limit Buy 1 100 0 fx_world).
    reflexivity.
Defined.

(** A sale on a market whose base mint is the wrapped native mint goes to
    the node. *)
Lemma place_order_sell_wrapped_base_submits_witness :
  exists p,
    net_log
      (snd (place_order fx_wsol fx_layout_size
              (fx_market fx_wsol (fx_key x0a) [fx_open_orders])
              fx_payer fx_owner Limit Sell 1 100 0 fx_world))
    = [CallFindOpenOrders (fx_key x01) (fx_key x21) (fx_key x02);
       CallSendTransaction (mkTransaction [NewOrderIx p]) [fx_owner] false]
    /\ no_side p = Sell.
Proof.
  apply (place_order_sell_wrapped_base_submits fx_wsol fx_layout_size
           (fx_market fx_wsol (fx_key x0a) [fx_open_orders])
           fx_payer fx_owner Limit 1 100 0 fx_world fx_open_orders []).
  - reflexivity.
  - vm_compute. discriminate.
  - vm_compute. discriminate.
  - vm_compute. discriminate.
  - reflexivity.
Defined.

Example place_order_sell_wrapped_base_returns :
  fst (place_order fx_wsol fx_layout_size
         (fx_market fx_wsol (fx_key x0a) [fx_open_orders])
         fx_payer fx_owner Limit Sell 1 100 0 fx_world)
  = Ok fx_signature.
Proof. vm_compute. reflexivity. Qed.

Example place_order_buy_wrapped_quote_raises :
  fst (place_order fx_wsol fx_layout_size
         (fx_market (fx_key x09) fx_wsol [fx_open_orders])
         fx_payer fx_owner Limit Buy 1 100 0 fx_world)
  = Raise (NotImplementedError "WRAPPED_SOL_MINT is currently unsupported").
Proof. vm_compute. reflexivity. Qed.

Example place_order_zero_lots_returns :
  fst (place_order fx_wsol fx_layout_size
         (fx_market (fx_key x09) (fx_key x0a) [fx_open_orders])
         fx_payer fx_owner Limit Buy 1 50 0 fx_world)
  = Ok fx_signature.
Proof. vm_compute. reflexivity. Qed.

Example load_fills_on_fixture :
  fst (load_fills fx_decode (fx_market (fx_key x09) (fx_key x0a) []) 100 fx_world)
  = Ok [ mkFilledOrder 263 Buy (101 # 50) (500 # 1) 10;
         mkFilledOrder 263 Sell (101 # 25) (250 # 1) (-10) ].
Proof. vm_compute. reflexivity. Qed.

(** ** The further properties on the fixtures *)

Lemma parse_fill_event_fee_cost_witness :
  let event := fx_event true false false 250 in
  let f := mkFilledOrder 263 Sell (101 # 25) (250 # 1) (-10) in
  parse_fill_event (fx_market (fx_key x09) (fx_key x0a) []) event = Ok f
  /\ fo_fee_cost f = (-10)%Z
  /\ price_before_fees event = (1000 - fo_fee_cost f)%Z.
Proof.
  cbn zeta. split; [reflexivity |].
  destruct (parse_fill_event_fee_cost (fx_market (fx_key x09) (fx_key x0a) [])
              (fx_event true false false 250)
              (mkFilledOrder 263 Sell (101 # 25) (250 # 1) (-10)) eq_refl)
    as [_ [Hfee Hbefore]].
  split; [exact Hfee | exact Hbefore].
Defined.

Lemma parse_fill_event_order_id_witness :
  let f := mkFilledOrder 263 Sell (101 # 25) (250 # 1) (-10) in
  (0 <= fo_order_id f < 256 ^ 2)%Z
  /\ forall n, int_from_bytes_little ([x07; x01] ++ repeat x00 n) = fo_order_id f.
Proof.
  cbn zeta.
  apply (parse_fill_event_order_id (fx_market (fx_key x09) (fx_key x0a) [])
           (fx_event true false false 250)
           (mkFilledOrder 263 Sell (101 # 25) (250 # 1) (-10))).
  reflexivity.
Defined.


(** A queue that does not decode: the error of the decoder is the error of
    [load_fills]. *)
Lemma load_fills_fails_iff_witness :
  fst (load_fills fx_decode_bad (fx_market (fx_key x09) (fx_key x0a) []) 100 fx_world)
  = Raise fx_decode_failure.
Proof.
  apply (load_fills_fails_iff fx_decode_bad (fx_market (fx_key x09) (fx_key x0a) []) 100
           fx_world fx_decode_failure).
  - vm_compute. repeat split; discriminate.
  - intros bytes_data events Hdec. discriminate Hdec.
  - right. exists []. split; reflexivity.
Defined.


(** Size and price both below zero lots: the size is reported. *)
Lemma make_place_order_instruction_fails_iff_witness :
  make_place_order_instruction (fx_market (fx_key x09) (fx_key x0a) [])
    fx_payer fx_owner Limit Buy (-1) (-100) 0 (fx_key x41)
  = Raise (Exception_ "Size lot -100 is too small").
Proof.
  destruct (make_place_order_instruction_fails_iff
              (fx_market (fx_key x09) (fx_key x0a) [])
              fx_payer fx_owner Limit Buy (-1) (-100) 0 (fx_key x41))
    as [_ [Hsize _]].
  apply Hsize. vm_compute. reflexivity.
Defined.

Lemma place_order_returns_signature_witness :
  fst (place_order fx_wsol fx_layout_size (fx_market (fx_key x09) (fx_key x0a) [])
         fx_payer fx_owner Limit Buy 1 100 0 fx_world)
  = Ok fx_signature.
Proof.
  apply (place_order_returns_signature fx_wsol fx_layout_size
           (fx_market (fx_key x09) (fx_key x0a) [])
           fx_payer fx_owner Limit Buy 1 100 0 fx_world fx_signature).
  - vm_compute. discriminate.
  - reflexivity.
  - vm_compute. discriminate.
  - vm_compute. discriminate.
  - reflexivity.
  - intros txn sgn. reflexivity.
  - vm_compute. discriminate.
Defined.

Lemma place_order_lookup_failure_witness :
  place_order fx_wsol fx_layout_size
    (fx_market_with 0 (Raise fx_node_down) (Ok (Some 1%Z)) (Ok (Some fx_signature)))
    fx_payer fx_owner Limit Buy 1 100 0 fx_world
  = (Raise fx_node_down,
     mkWorld [CallFindOpenOrders (fx_key x01) (fx_key x21) (fx_key x02)]
       (key_source fx_world) 0 []).
Proof.
  apply (place_order_lookup_failure fx_wsol fx_layout_size
           (fx_market_with 0 (Raise fx_node_down) (Ok (Some 1%Z)) (Ok (Some fx_signature)))
           fx_payer fx_owner Limit Buy 1 100 0 fx_world fx_node_down).
  reflexivity.
Defined.

(** No open-orders account and a rent response without its result: the call
    stops on the missing key, one key pair drawn. *)
Lemma place_order_rent_failure_witness :
  place_order fx_wsol fx_layout_size
    (fx_market_with 0 (Ok []) (Ok None) (Ok (Some fx_signature)))
    fx_payer fx_owner Limit Buy 1 100 0 fx_world
  = (Raise (KeyError "result"),
     mkWorld
       [CallFindOpenOrders (fx_key x01) (fx_key x21) (fx_key x02);
        CallGetMinimumBalance fx_layout_size]
       (key_source fx_world) 1 []).
Proof.
  apply (place_order_rent_failure fx_wsol fx_layout_size
           (fx_market_with 0 (Ok []) (Ok None) (Ok (Some fx_signature)))
           fx_payer fx_owner Limit Buy 1 100 0 fx_world (KeyError "result")).
  - reflexivity.
  - right. split; reflexivity.
Defined.

(** A market opened with one confirmation, a submitter that answers without
    a signature: the call fails, and the warning is logged all the same. *)
Example send_transaction_warns_without_signature :
  _send_transaction (fx_market_with 1 (Ok []) (Ok None) (Ok None)) Transaction_new
    [fx_owner] fx_world
  = (Raise (Exception_ "Transaction not sent successfully"),
     mkWorld [CallSendTransaction Transaction_new [fx_owner] true]
       (key_source fx_world) 0 ["Cannot confirm transaction yet."]).
Proof. vm_compute. reflexivity. Qed.

Example parse_fill_event_nothing_paid :
  parse_fill_event (fx_market (fx_key x09) (fx_key x0a) []) (fx_event true false false 0)
  = Raise ZeroDivisionError.
Proof. reflexivity. Qed.
